(** * optree: the PyTreeSpec descriptor

    A shallow embedding of [src/treespec/treespec.cpp] and
    [src/treespec/unflatten.cpp]: the post-order traversal of a pytree
    ([PyTreeSpec::traversal]), its reconstruction engine
    ([UnflattenImpl], [MakeNode]), its renderer ([ToString]), its
    structural equality ([operator==]) and its pickle codec
    ([ToPicklable], [FromPicklableImpl]).

    C++ exceptions are modelled by an error monad, the agenda (a vector
    growing at its end) by a list whose last element is the top. *)

From Stdlib Require Import ZArith String Ascii List Bool Lia.
Import ListNotations.

Local Open Scope Z_scope.

(* ------------------------------------------------------------------ *)
(** ** Host values *)

(** The Python objects the code handles through [py::object].  Type
    objects carry an identity, their [__name__] and, for namedtuple
    classes, their [_fields]; [PyOpaque] stands for any other object,
    compared by identity. *)
#[warnings="-register-all"] Inductive PyObj : Type :=
| PyNone
| PyInt (z : Z)
| PyStr (s : string)
| PyTuple (items : list PyObj)
| PyList (items : list PyObj)
| PyDict (entries : list (PyObj * PyObj))
| PyType (id : nat) (name : string) (fields : option (list string))
| PyOpaque (id : nat).

(** Two sequences compared element by element. *)
Section ListEqb.
Context {A : Type} (eqb : A -> A -> bool).

Fixpoint list_eqb (xs ys : list A) {struct xs} : bool :=
  match xs, ys with
  | [], [] => true
  | x :: xs', y :: ys' => eqb x y && list_eqb xs' ys'
  | _, _ => false
  end.
End ListEqb.

(** Python's [==] on these objects: sequences compare element by element,
    mappings entry by entry whatever the order, type objects and opaque
    objects by identity. *)
Fixpoint py_eqb (a b : PyObj) {struct a} : bool :=
  match a, b with
  | PyNone, PyNone => true
  | PyInt x, PyInt y => Z.eqb x y
  | PyStr x, PyStr y => String.eqb x y
  | PyTuple xs, PyTuple ys => list_eqb (fun x y => py_eqb x y) xs ys
  | PyList xs, PyList ys => list_eqb (fun x y => py_eqb x y) xs ys
  | PyDict es, PyDict fs =>
      Nat.eqb (length es) (length fs) &&
      forallb (fun e => existsb (fun f => py_eqb (fst e) (fst f) && py_eqb (snd e) (snd f)) fs) es
  | PyType i _ _, PyType j _ _ => Nat.eqb i j
  | PyOpaque i, PyOpaque j => Nat.eqb i j
  | _, _ => false
  end.

(** [handle.is(other)]: identity of two objects. *)
Definition py_is (a b : PyObj) : bool :=
  match a, b with
  | PyNone, PyNone => true
  | PyType i _ _, PyType j _ _ => Nat.eqb i j
  | PyOpaque i, PyOpaque j => Nat.eqb i j
  | _, _ => false
  end.

Definition is_none (o : PyObj) : bool :=
  match o with PyNone => true | _ => false end.

(** Whether [hash(o)] succeeds. *)
Fixpoint py_hashable (o : PyObj) : bool :=
  match o with
  | PyNone | PyInt _ | PyStr _ | PyType _ _ _ | PyOpaque _ => true
  | PyTuple items => forallb (fun x => py_hashable x) items
  | PyList _ | PyDict _ => false
  end.

(** [collections.OrderedDict], [collections.defaultdict] and
    [collections.deque], the globals [py::OrderedDict], [py::DefaultDict]
    and [py::Deque] of the binding. *)
Definition OrderedDict : PyObj := PyType 1 "OrderedDict" None.
Definition DefaultDict : PyObj := PyType 2 "defaultdict" None.
Definition Deque : PyObj := PyType 3 "deque" None.

(* ------------------------------------------------------------------ *)
(** ** Exceptions *)

(** Python exceptions, by type; [OtherError] is any type the code itself
    never provokes. *)
Inductive PyErrKind := IndexError | TypeError | AttributeError | SystemError | OtherError.

(** What the code throws.  Each constructor is one [throw] site (or one
    family of host failures).  In the specification's vocabulary,
    [TooFewElements] and [NotSingleton] are MalformedSpec, [TooFewLeaves]
    is ExhaustedLeaves, [TooManyLeaves] is TooManyLeaves, [KeysMismatch]
    and [FieldsMismatch] are AuxMismatch, [MalformedPickle] is
    MalformedEncoding and [UnknownCustomType] is UnknownRegistration. *)
Inductive Exception : Type :=
| TooFewElements       (* logic_error "Too few elements for PyTreeSpec node." /
                          "Too few elements for container." *)
| TooFewLeaves (expected got : Z)
                       (* invalid_argument "Too few leaves for PyTreeSpec; expected %ld, got %ld." *)
| TooManyLeaves (expected : Z)
                       (* invalid_argument "Too many leaves for PyTreeSpec; expected %ld." *)
| NotSingleton         (* logic_error "PyTreeSpec traversal did not yield a singleton." *)
| Unreachable          (* logic_error "Unreachable code." *)
| ArityMismatch        (* logic_error "Node arity did not match." *)
| MakeNodeLeaf         (* logic_error "MakeNode not implemented for leaves." *)
| KeysMismatch         (* logic_error "Number of keys and entries does not match." *)
| FieldsMismatch       (* logic_error "Number of fields and entries does not match." *)
| AuxDataMismatch      (* logic_error "Number of auxiliary data mismatch." *)
| MalformedPickle      (* runtime_error "Malformed pickled PyTreeSpec." *)
| UnknownCustomType (t : PyObj)
                       (* runtime_error "Unknown custom type in pickled PyTreeSpec: <repr>." *)
| CastError            (* pybind11::cast_error / type_error of a failed cast *)
| PyErr (k : PyErrKind) (* pybind11::error_already_set *)
| UndefinedBehaviour.  (* a null handle dereferenced, an iterator out of its range *)



Inductive Exc (A : Type) : Type :=
| Ok (a : A)
| Throw (e : Exception).
Arguments Ok {A} a.
Arguments Throw {A} e.

Definition bind {A B} (m : Exc A) (k : A -> Exc B) : Exc B :=
  match m with Ok a => k a | Throw e => Throw e end.

Notation "x <- m ;; k" := (bind m (fun x => k))
  (at level 61, m at next level, right associativity).

(** What a call into the host gives back: a value, or a Python exception,
    which reaches the caller as [pybind11::error_already_set]. *)
Inductive PyResult : Type :=
| Returns (v : PyObj)
| Raises (k : PyErrKind).

Definition of_host (r : PyResult) : Exc PyObj :=
  match r with Returns v => Ok v | Raises k => Throw (PyErr k) end.

(** A range-for loop whose body may throw. *)
Fixpoint for_each {S A} (body : S -> A -> Exc S) (l : list A) (s : S) : Exc S :=
  match l with
  | [] => Ok s
  | x :: l' => s' <- body s x ;; for_each body l' s'
  end.

(* ------------------------------------------------------------------ *)
(** ** Kinds, registrations, nodes *)

Module PyTreeKind.
Inductive t := Leaf | None | Tuple | NamedTuple | List | Dict | Custom.

(** Modelled from the spec: the enumerator values of [enum class
    PyTreeKind] are declared in [include/treespec.h], which is not among
    the sources; the enumerators are numbered from 0 in the order in
    which the data model lists the kinds. *)
Definition to_tag (k : t) : Z :=
  match k with
  | Leaf => 0 | None => 1 | Tuple => 2 | NamedTuple => 3
  | Dict => 4 | List => 5 | Custom => 6
  end.

(** The enumerator a stored value matches in a [switch], if any. *)
Definition of_tag (z : Z) : option t :=
  if z =? 0 then Some Leaf else if z =? 1 then Some None
  else if z =? 2 then Some Tuple else if z =? 3 then Some NamedTuple
  else if z =? 4 then Some Dict else if z =? 5 then Some List
  else if z =? 6 then Some Custom else Datatypes.None.
End PyTreeKind.

(** [PyTreeTypeRegistry::Registration].  A node keeps a pointer into the
    registry; [addr] is that pointer, the only thing [operator==]
    compares. *)
Record Registration := mkRegistration {
  addr : nat;
  type : PyObj;
  from_iterable : PyObj -> list PyObj -> PyResult
}.

Definition same_registration (a b : option Registration) : bool :=
  match a, b with
  | None, None => true
  | Some r, Some r' => Nat.eqb (addr r) (addr r')
  | _, _ => false
  end.

(** [PyTreeSpec::Node].  [kind] is the stored enum value, an enumerator
    or any other value of the underlying type; [node_data] is [None] for
    the null handle, [custom] is [None] for [nullptr]. *)
Record Node := mkNode {
  kind : Z;
  arity : Z;
  node_data : option PyObj;
  custom : option Registration;
  num_leaves : Z;
  num_nodes : Z
}.

Record PyTreeSpec := mkSpec { traversal : list Node }.

Definition size {A} (v : list A) : Z := Z.of_nat (length v).

(* ------------------------------------------------------------------ *)
(** ** treespec.cpp: counts *)

Definition PyTreeSpec_num_leaves (self : PyTreeSpec) : Z :=
  match rev (traversal self) with
  | [] => 0
  | back :: _ => num_leaves back
  end.

Definition PyTreeSpec_num_nodes (self : PyTreeSpec) : Z := size (traversal self).

(* ------------------------------------------------------------------ *)
(** ** treespec.cpp: MakeNode *)

(** [dict[key] = value]: an unhashable key raises; a key already present
    keeps its place and takes the new value. *)
Fixpoint dict_assign (d : list (PyObj * PyObj)) (key value : PyObj)
  : list (PyObj * PyObj) :=
  match d with
  | [] => [(key, value)]
  | (k, v) :: d' =>
      if py_eqb k key then (k, value) :: d' else (k, v) :: dict_assign d' key value
  end.

Definition dict_setitem (d : list (PyObj * PyObj)) (key value : PyObj)
  : Exc (list (PyObj * PyObj)) :=
  if py_hashable key then Ok (dict_assign d key value) else Throw (PyErr TypeError).

(** [dict[key]], read: the value of the entry whose key equals [key]. *)
Definition dict_getitem (d : list (PyObj * PyObj)) (key : PyObj) : option PyObj :=
  option_map snd (find (fun entry => py_eqb (fst entry) key) d).

(** Whether [key in dict]. *)
Definition dict_contains (d : list (PyObj * PyObj)) (key : PyObj) : bool :=
  existsb (fun entry => py_eqb (fst entry) key) d.

(** A dict all of whose keys can be hashed, as every dict is. *)
Definition keys_hashable (d : list (PyObj * PyObj)) : Prop :=
  forallb (fun entry => py_hashable (fst entry)) d = true.

(** The loop [for (i = 0; i < arity; ++i) dict[keys[i]] = children[i]],
    entered with [arity] children: [keys] and [children] are what is left
    from index [i] on. *)
Fixpoint MakeNode_dict_loop (dict : list (PyObj * PyObj)) (keys children : list PyObj)
    {struct children} : Exc (list (PyObj * PyObj)) :=
  match children with
  | [] => Ok dict
  | child :: children' =>
      match keys with
      | [] => Throw (PyErr IndexError)
      | key :: keys' =>
          dict' <- dict_setitem dict key child ;;
          MakeNode_dict_loop dict' keys' children'
      end
  end.

Section Reconstruction.

(** The host's call of an object on positional arguments, used on a
    namedtuple class with the children unpacked. *)
Variable py_call : PyObj -> list PyObj -> PyResult.

Definition MakeNode (node : Node) (children : list PyObj) : Exc PyObj :=
  if negb (size children =? arity node) then Throw ArityMismatch else
  match PyTreeKind.of_tag (kind node) with
  | Some PyTreeKind.Leaf => Throw MakeNodeLeaf
  | Some PyTreeKind.None => Ok PyNone
  | Some PyTreeKind.Tuple => Ok (PyTuple children)
  | Some PyTreeKind.NamedTuple =>
      match node_data node with
      | Some cls => of_host (py_call cls children)
      | None => Throw UndefinedBehaviour
      end
  | Some PyTreeKind.List => Ok (PyList children)
  | Some PyTreeKind.Dict =>
      match node_data node with
      | Some (PyList keys) =>
          dict <- MakeNode_dict_loop [] keys children ;; Ok (PyDict dict)
      | Some _ =>
          match children with
          | [] => Ok (PyDict [])
          | _ :: _ => Throw (PyErr SystemError)
          end
      | None =>
          match children with
          | [] => Ok (PyDict [])
          | _ :: _ => Throw UndefinedBehaviour
          end
      end
  | Some PyTreeKind.Custom =>
      match custom node with
      | Some registration =>
          match node_data node with
          | Some data => of_host (from_iterable registration data children)
          | None => Throw CastError
          end
      | None => Throw UndefinedBehaviour
      end
  | None => Throw Unreachable
  end.

(* ---------------------------------------------------------------- *)
(** ** unflatten.cpp: UnflattenImpl *)

(** The loop state: the agenda, the iterator into [leaves] (what is
    left of them) and [leaf_count]. *)
Record Walk := mkWalk {
  agenda : list PyObj;
  it : list PyObj;
  leaf_count : Z
}.

Definition Unflatten_node (self : PyTreeSpec) (w : Walk) (node : Node) : Exc Walk :=
  if size (agenda w) <? arity node then Throw TooFewElements else
  match PyTreeKind.of_tag (kind node) with
  | Some PyTreeKind.Leaf | Some PyTreeKind.None =>
      match it w with
      | [] => Throw (TooFewLeaves (PyTreeSpec_num_leaves self) (leaf_count w))
      | leaf :: rest => Ok (mkWalk (agenda w ++ [leaf]) rest (leaf_count w + 1))
      end
  | Some PyTreeKind.Tuple | Some PyTreeKind.NamedTuple | Some PyTreeKind.List
  | Some PyTreeKind.Dict | Some PyTreeKind.Custom =>
      let sz := size (agenda w) in
      let span :=
        if arity node >? 0 then skipn (Z.to_nat (sz - arity node)) (agenda w) else [] in
      out <- MakeNode node span ;;
      Ok (mkWalk (firstn (Z.to_nat (sz - arity node)) (agenda w) ++ [out])
                 (it w) (leaf_count w))
  | None => Throw Unreachable
  end.

Definition Unflatten_loop (self : PyTreeSpec) (nodes : list Node) (w : Walk) : Exc Walk :=
  for_each (Unflatten_node self) nodes w.

Definition UnflattenImpl (self : PyTreeSpec) (leaves : list PyObj) : Exc PyObj :=
  w <- Unflatten_loop self (traversal self) (mkWalk [] leaves 0) ;;
  match it w with
  | _ :: _ => Throw (TooManyLeaves (PyTreeSpec_num_leaves self))
  | [] =>
      if negb (size (agenda w) =? 1) then Throw NotSingleton
      else Ok (last (agenda w) PyNone)
  end.

End Reconstruction.

(* ------------------------------------------------------------------ *)
(** ** treespec.cpp: ToString *)

(** [py::len] and iteration over a handle, for the objects that have
    them. *)
Definition chars (s : string) : list PyObj :=
  map (fun c => PyStr (String c EmptyString)) (list_ascii_of_string s).

Definition py_len (o : PyObj) : Exc Z :=
  match o with
  | PyTuple items | PyList items => Ok (size items)
  | PyDict entries => Ok (size entries)
  | PyStr s => Ok (Z.of_nat (String.length s))
  | _ => Throw (PyErr TypeError)
  end.

Definition py_iter (o : PyObj) : Exc (list PyObj) :=
  match o with
  | PyTuple items | PyList items => Ok items
  | PyDict entries => Ok (map fst entries)
  | PyStr s => Ok (chars s)
  | _ => Throw (PyErr TypeError)
  end.

(** [aux_data[i]] on a handle borrowed as a tuple. *)
Definition tuple_item (o : PyObj) (i : nat) : Exc PyObj :=
  match o with
  | PyTuple items =>
      match nth_error items i with
      | Some x => Ok x
      | None => Throw (PyErr IndexError)
      end
  | _ => Throw (PyErr SystemError)
  end.

Definition getattr_fields (o : PyObj) : Exc (list string) :=
  match o with
  | PyType _ _ (Some fields) => Ok fields
  | _ => Throw (PyErr AttributeError)
  end.

Definition getattr_name (o : PyObj) : Exc string :=
  match o with
  | PyType _ name _ => Ok name
  | _ => Throw (PyErr AttributeError)
  end.

(** The loops that append one formatted entry per key while [child_iter]
    advances over the agenda's top: [entry] is the format after the
    separator. *)
Fixpoint append_entries {K} (entry : K -> string -> string) (keys : list K)
    (child_iter : list string) (separator representation : string) : Exc string :=
  match keys with
  | [] => Ok representation
  | key :: keys' =>
      match child_iter with
      | [] => Throw UndefinedBehaviour
      | child :: child_iter' =>
          append_entries entry keys' child_iter' ", "
            (representation ++ separator ++ entry key child)%string
      end
  end.

Section Rendering.

(** [py::repr] and [py::str] of the host. *)
Variable py_repr : PyObj -> string.
Variable py_str : PyObj -> string.

Definition ToString_node (agenda : list string) (node : Node) : Exc (list string) :=
  if size agenda <? arity node then Throw TooFewElements else
  if arity node <? 0 then Throw UndefinedBehaviour else
  let first := Z.to_nat (size agenda - arity node) in
  let top := skipn first agenda in
  let children := String.concat ", " top in
  let replace_top (representation : string) : Exc (list string) :=
    Ok (firstn first agenda ++ [representation]) in
  match PyTreeKind.of_tag (kind node) with
  | Some PyTreeKind.Leaf => Ok (agenda ++ ["*"%string])
  | Some PyTreeKind.None => replace_top "None"%string
  | Some PyTreeKind.Tuple =>
      let children := if arity node =? 1 then (children ++ ",")%string else children in
      replace_top ("(" ++ children ++ ")")%string
  | Some PyTreeKind.List => replace_top ("[" ++ children ++ "]")%string
  | Some PyTreeKind.Dict =>
      match node_data node with
      | None => Throw (PyErr SystemError)
      | Some data =>
          n <- py_len data ;;
          if negb (n =? arity node) then Throw KeysMismatch else
          keys <- py_iter data ;;
          representation <-
            append_entries (fun key child => py_repr key ++ ": " ++ child)%string
              keys top "" "{" ;;
          replace_top (representation ++ "}")%string
      end
  | Some PyTreeKind.NamedTuple =>
      match node_data node with
      | None => Throw UndefinedBehaviour
      | Some type =>
          fields <- getattr_fields type ;;
          if negb (size fields =? arity node) then Throw FieldsMismatch else
          kind <- getattr_name type ;;
          representation <-
            append_entries (fun field child => field ++ "=" ++ child)%string
              fields top "" (kind ++ "(")%string ;;
          replace_top (representation ++ ")")%string
      end
  | Some PyTreeKind.Custom =>
      match custom node with
      | None => Throw UndefinedBehaviour
      | Some registration =>
          let type := type registration in
          kind <- getattr_name type ;;
          if py_is type OrderedDict then
            match node_data node with
            | None => Throw UndefinedBehaviour
            | Some data =>
                keys <- py_iter data ;;
                representation <-
                  append_entries
                    (fun key child => "(" ++ py_repr key ++ ", " ++ child ++ ")")%string
                    keys top "" (kind ++ "([")%string ;;
                replace_top (representation ++ "])")%string
            end
          else if py_is type DefaultDict then
            match node_data node with
            | None => Throw (PyErr SystemError)
            | Some data =>
                n <- py_len data ;;
                if negb (n =? 2) then Throw AuxDataMismatch else
                factory <- tuple_item data 0 ;;
                keys <- tuple_item data 1 ;;
                m <- py_len keys ;;
                if negb (m =? arity node) then Throw KeysMismatch else
                keys <- py_iter keys ;;
                representation <-
                  append_entries (fun key child => py_repr key ++ ": " ++ child)%string
                    keys top "" (kind ++ "(" ++ py_repr factory ++ ", {")%string ;;
                replace_top (representation ++ "})")%string
            end
          else if py_is type Deque then
            replace_top (kind ++ "([" ++ children ++ "])")%string
          else
            let data :=
              match node_data node with
              | Some d => ("[" ++ py_str d ++ "]")%string
              | None => ""%string
              end in
            replace_top ("CustomTreeNode(" ++ kind ++ data ++ ", [" ++ children ++ "])")%string
      end
  | None => Throw Unreachable
  end.

Definition ToString_loop (nodes : list Node) (agenda : list string) : Exc (list string) :=
  for_each ToString_node nodes agenda.

Definition ToString (self : PyTreeSpec) : Exc string :=
  agenda <- ToString_loop (traversal self) [] ;;
  if negb (size agenda =? 1) then Throw NotSingleton
  else Ok ("PyTreeSpec(" ++ last agenda "" ++ ")")%string.

End Rendering.

(* ------------------------------------------------------------------ *)
(** ** treespec.cpp: operator== *)

Definition is_null {A} (p : option A) : bool :=
  match p with Some _ => false | None => true end.

(** [a->node_data.not_equal(b->node_data)], reached with both handles
    set. *)
Definition not_equal (a b : option PyObj) : bool :=
  match a, b with
  | Some x, Some y => negb (py_eqb x y)
  | _, _ => false
  end.

(** The loop of [operator==], [a] and [b] advancing together; it is
    entered with two traversals of one size. *)
Fixpoint eq_loop (a b : list Node) : bool :=
  match a, b with
  | [], _ => true
  | _ :: _, [] => false
  | x :: a', y :: b' =>
      if negb (kind x =? kind y) || negb (arity x =? arity y)
         || negb (Bool.eqb (is_null (node_data x)) (is_null (node_data y)))
         || negb (same_registration (custom x) (custom y))
      then false
      else if negb (is_null (node_data x)) && not_equal (node_data x) (node_data y)
      then false
      else eq_loop a' b'
  end.

Definition PyTreeSpec_eq (self other : PyTreeSpec) : bool :=
  if negb (size (traversal self) =? size (traversal other)) then false
  else eq_loop (traversal self) (traversal other).

Definition PyTreeSpec_ne (self other : PyTreeSpec) : bool :=
  negb (PyTreeSpec_eq self other).

(* ------------------------------------------------------------------ *)
(** ** treespec.cpp: the pickle codec *)

Definition or_none (o : option PyObj) : PyObj :=
  match o with Some x => x | None => PyNone end.

(** The tuple [ToPicklable] appends for one node. *)
Definition encode_node (node : Node) : PyObj :=
  PyTuple [PyInt (kind node);
           PyInt (arity node);
           or_none (node_data node);
           or_none (option_map type (custom node));
           PyInt (num_leaves node);
           PyInt (num_nodes node)].

Definition ToPicklable (self : PyTreeSpec) : PyObj :=
  PyList (map encode_node (traversal self)).

(** The casts of the binding layer: [cast<ssize_t>] takes an integer
    that fits, [cast<py::type>] a type object, [cast<py::list>] and
    [cast<py::tuple>] convert whatever can be iterated. *)
Definition fits_ssize_t (z : Z) : bool := (- 2 ^ 63 <=? z) && (z <? 2 ^ 63).

Definition cast_ssize_t (o : PyObj) : Exc Z :=
  match o with
  | PyInt z => if fits_ssize_t z then Ok z else Throw CastError
  | _ => Throw CastError
  end.

(** Modelled from the spec: [static_cast<PyTreeKind>] of an [ssize_t].
    The enumeration is declared in [include/treespec.h], which is not
    among the sources; the data model gives it as a closed enumeration
    with no base type, and a scoped enumeration declared without a base
    has underlying type [int]: the cast keeps the low 32 bits, read as a
    signed number. *)
Definition static_cast_PyTreeKind (z : Z) : Z := (z + 2 ^ 31) mod 2 ^ 32 - 2 ^ 31.

Definition cast_type (o : PyObj) : Exc PyObj :=
  match o with
  | PyType _ _ _ => Ok o
  | _ => Throw CastError
  end.

Definition cast_list (o : PyObj) : Exc PyObj :=
  items <- py_iter o ;; Ok (PyList items).

Definition cast_tuple (o : PyObj) : Exc (list PyObj) := py_iter o.

Section Decoding.

(** [PyTreeTypeRegistry::Lookup], the registry's lookup by type. *)
Variable Lookup : PyObj -> option Registration.

(** One turn of the loop of [FromPicklableImpl]: the node decoded from
    [item], appended to the traversal built so far. *)
Definition FromPicklable_item (tree : list Node) (item : PyObj) : Exc (list Node) :=
  t <- cast_tuple item ;;
  match t with
  | [t0; t1; t2; t3; t4; t5] =>
      tag <- cast_ssize_t t0 ;;
      let kind := static_cast_PyTreeKind tag in
      arity <- cast_ssize_t t1 ;;
      node_data <-
        match PyTreeKind.of_tag kind with
        | Some PyTreeKind.NamedTuple => d <- cast_type t2 ;; Ok (Some d)
        | Some PyTreeKind.Dict => d <- cast_list t2 ;; Ok (Some d)
        | Some PyTreeKind.Custom => Ok (Some t2)
        | _ => if negb (is_none t2) then Throw MalformedPickle else Ok None
        end ;;
      custom <-
        match PyTreeKind.of_tag kind with
        | Some PyTreeKind.Custom =>
            match (if is_none t3 then None else Lookup t3) with
            | None => Throw (UnknownCustomType t3)
            | Some registration => Ok (Some registration)
            end
        | _ => if negb (is_none t3) then Throw MalformedPickle else Ok None
        end ;;
      num_leaves <- cast_ssize_t t4 ;;
      num_nodes <- cast_ssize_t t5 ;;
      Ok (tree ++ [mkNode kind arity node_data custom num_leaves num_nodes])
  | _ => Throw MalformedPickle
  end.

Definition FromPicklableImpl (picklable : PyObj) : Exc PyTreeSpec :=
  items <- py_iter picklable ;;
  tree <- for_each FromPicklable_item items [] ;;
  Ok (mkSpec tree).

Definition FromPicklable (picklable : PyObj) : Exc PyTreeSpec :=
  FromPicklableImpl picklable.

End Decoding.

(* ------------------------------------------------------------------ *)
(** ** treespec.cpp: GetKind *)

Section Classification.

(** The registry's lookup by type; the [kind] member of a registration,
    which the record above leaves out; and the host's [get_type],
    [isinstance] of [tuple] and [hasattr] of ["_fields"]. *)
Variable Lookup : PyObj -> option Registration.
Variable registration_kind : Registration -> Z.
Variable get_type : PyObj -> PyObj.
Variable isinstance_tuple : PyObj -> bool.
Variable hasattr_fields : PyObj -> bool.

(** [GetKind] returns the kind and writes through [custom]: the second
    component is what [*custom] holds afterwards, [custom] being what it
    held before. *)
Definition GetKind (handle : PyObj) (custom : option Registration)
  : Z * option Registration :=
  match Lookup (get_type handle) with
  | Some registration =>
      (registration_kind registration,
       if registration_kind registration =? PyTreeKind.to_tag PyTreeKind.Custom
       then Some registration else None)
  | None =>
      if isinstance_tuple handle && hasattr_fields handle
      then (PyTreeKind.to_tag PyTreeKind.NamedTuple, custom)
      else (PyTreeKind.to_tag PyTreeKind.Leaf, custom)
  end.

End Classification.

(* ------------------------------------------------------------------ *)
(** ** The data model's invariants *)

(** The nodes the reconstruction loop serves from [leaves]. *)
Definition leaf_like (node : Node) : bool :=
  match PyTreeKind.of_tag (kind node) with
  | Some PyTreeKind.Leaf | Some PyTreeKind.None => true
  | _ => false
  end.

Definition is_kind (k : PyTreeKind.t) (node : Node) : bool :=
  kind node =? PyTreeKind.to_tag k.

(** Post-order consistency, in the words of the data model: a [Leaf] or a
    [None] pushes one item, any other node pops [arity] items and pushes
    one.  [postorder_depth nodes d] is the depth reached from depth [d],
    unless a node underflows. *)
Fixpoint postorder_depth (nodes : list Node) (depth : Z) : option Z :=
  match nodes with
  | [] => Some depth
  | node :: rest =>
      if leaf_like node then postorder_depth rest (depth + 1)
      else if depth <? arity node then None
      else postorder_depth rest (depth - arity node + 1)
  end.

Definition known_kind (node : Node) : bool :=
  match PyTreeKind.of_tag (kind node) with Some _ => true | None => false end.

(** A traversal that is not empty, whose nodes have a kind of the
    enumeration and an arity that is not negative (zero on [Leaf] and
    [None]), and that is post-order consistent. *)
Definition well_formed (self : PyTreeSpec) : bool :=
  negb (size (traversal self) =? 0)
  && forallb (fun node => known_kind node && (0 <=? arity node)
                          && (negb (leaf_like node) || (arity node =? 0)))
             (traversal self)
  && match postorder_depth (traversal self) 0 with
     | Some depth => depth =? 1
     | None => false
     end.

Definition max_arity (nodes : list Node) : Z :=
  fold_right (fun node m => Z.max (arity node) m) 0 nodes.

(** For a key list and the children zipped with it: the child at the
    last position whose key equals [key], and whether some key comes
    twice. *)
Fixpoint last_bound (keys children : list PyObj) (key : PyObj) : option PyObj :=
  match keys, children with
  | k :: keys', child :: children' =>
      match last_bound keys' children' key with
      | Some later => Some later
      | None => if py_eqb k key then Some child else None
      end
  | _, _ => None
  end.

Fixpoint has_duplicate (keys : list PyObj) : bool :=
  match keys with
  | [] => false
  | k :: keys' => existsb (py_eqb k) keys' || has_duplicate keys'
  end.

(** What [operator==] asks of two nodes at the same position: the same
    kind and arity, [node_data] set in both or in neither and equal when
    set, the same registration. *)
Definition nodes_agree (x y : Node) : Prop :=
  kind x = kind y /\ arity x = arity y /\
  (node_data x = None <-> node_data y = None) /\
  (forall dx dy, node_data x = Some dx -> node_data y = Some dy -> py_eqb dx dy = true) /\
  same_registration (custom x) (custom y) = true.

(** Two nodes that differ at most in [num_leaves] and [num_nodes]. *)
Definition same_but_counts (x y : Node) : Prop :=
  kind x = kind y /\ arity x = arity y /\ node_data x = node_data y /\ custom x = custom y.

(** A node as the data model has it: integers that fit [ssize_t], a kind
    of the enumeration, [node_data] a type object on a namedtuple node,
    a list on a dict node, set on a custom node and null otherwise, and
    [custom] set on custom nodes only, to a registration that [Lookup]
    finds under its type. *)
Definition valid_node (Lookup : PyObj -> option Registration) (node : Node) : Prop :=
  fits_ssize_t (arity node) = true /\ fits_ssize_t (num_leaves node) = true /\
  fits_ssize_t (num_nodes node) = true /\
  match PyTreeKind.of_tag (kind node) with
  | Some PyTreeKind.NamedTuple =>
      (exists id name fields, node_data node = Some (PyType id name fields)) /\
      custom node = None
  | Some PyTreeKind.Dict =>
      (exists keys, node_data node = Some (PyList keys)) /\ custom node = None
  | Some PyTreeKind.Custom =>
      (exists data, node_data node = Some data) /\
      (exists registration,
          custom node = Some registration /\ is_none (type registration) = false /\
          Lookup (type registration) = Some registration)
  | Some _ => node_data node = None /\ custom node = None
  | None => False
  end.

(* ------------------------------------------------------------------ *)
(** ** Sample traversals and hosts *)

Definition leaf_node : Node := mkNode (PyTreeKind.to_tag PyTreeKind.Leaf) 0 None None 1 1.
Definition none_node : Node := mkNode (PyTreeKind.to_tag PyTreeKind.None) 0 None None 0 1.
Definition tuple_node (arity leaves nodes : Z) : Node :=
  mkNode (PyTreeKind.to_tag PyTreeKind.Tuple) arity None None leaves nodes.
Definition list_node (arity leaves nodes : Z) : Node :=
  mkNode (PyTreeKind.to_tag PyTreeKind.List) arity None None leaves nodes.
Definition dict_node (keys : list PyObj) (arity leaves nodes : Z) : Node :=
  mkNode (PyTreeKind.to_tag PyTreeKind.Dict) arity (Some (PyList keys)) None leaves nodes.

(** A pair whose second component is a pair whose second component is a
    pair: four leaves under three nodes of arity 2. *)
Definition nested_pairs : PyTreeSpec :=
  mkSpec [leaf_node; leaf_node; leaf_node; leaf_node;
          tuple_node 2 2 3; tuple_node 2 3 5; tuple_node 2 4 7].

(** A tuple of three leaves. *)
Definition triple : PyTreeSpec :=
  mkSpec [leaf_node; leaf_node; leaf_node; tuple_node 3 3 4].


(** The traversal of a dict with key ['a'] bound to a list of two leaves
    and key ['b'] bound to [None]. *)
Definition dict_of_list_and_none : PyTreeSpec :=
  mkSpec [leaf_node; leaf_node; list_node 2 2 3; none_node;
          dict_node [PyStr "a"; PyStr "b"] 2 2 5].

(** A dict node whose key list holds ['a'] twice. *)
Definition repeated_key_node : Node := dict_node [PyStr "a"; PyStr "a"] 2 2 3.

(** A registered class, a registry that knows it, and the traversal of
    one of its instances holding a leaf. *)
Definition box_type : PyObj := PyType 10 "Box" None.

Definition box_registration : Registration :=
  mkRegistration 1 box_type (fun data children => Returns (PyTuple (data :: children))).

Definition box_registry (t : PyObj) : option Registration :=
  if py_is t box_type then Some box_registration else None.

Definition boxed_leaf : PyTreeSpec :=
  mkSpec [leaf_node;
          mkNode (PyTreeKind.to_tag PyTreeKind.Custom) 1 (Some PyNone) (Some box_registration) 1 2].

(** The pickle of a lone tuple node of arity 2, with no child before it,
    and the pickle of a lone node whose kind tag is 99. *)
Definition childless_pair_pickle : PyObj :=
  PyList [PyTuple [PyInt (PyTreeKind.to_tag PyTreeKind.Tuple); PyInt 2; PyNone; PyNone;
                   PyInt 0; PyInt 1]].





(** The pickle of a lone record whose kind tag is the tag of a custom
    node plus 2^32, with the box class as registration field. *)
Definition wrapped_custom_tag_pickle : PyObj :=
  PyList [PyTuple [PyInt (2 ^ 32 + PyTreeKind.to_tag PyTreeKind.Custom); PyInt 1; PyNone;
                   box_type; PyInt 1; PyInt 2]].

(** A host in which no object can be called, one whose [repr] and [str]
    of a string are the string between quotes, and an empty registry. *)
Definition no_call (callee : PyObj) (args : list PyObj) : PyResult := Raises TypeError.

Definition quoted (o : PyObj) : string :=
  match o with
  | PyStr s => ("'" ++ s ++ "'")%string
  | _ => "<object>"%string
  end.

Definition empty_registry (t : PyObj) : option Registration := None.

(* ------------------------------------------------------------------ *)
(** ** Classes of values and of nodes *)

(** The objects with no dict inside: on them [==] is an equivalence. *)
Fixpoint dict_free (o : PyObj) : bool :=
  match o with
  | PyTuple items => forallb (fun x => dict_free x) items
  | PyList items => forallb (fun x => dict_free x) items
  | PyDict _ => false
  | _ => true
  end.

Definition aux_dict_free (node : Node) : bool :=
  match node_data node with
  | Some data => dict_free data
  | None => true
  end.

(** The nodes rebuilt and rendered without a call into the host: leaves
    and [None] of arity 0, tuples and lists of an arity that is not
    negative, dicts with a list of as many hashable keys as the arity. *)
Definition plain_node (node : Node) : bool :=
  match PyTreeKind.of_tag (kind node) with
  | Some PyTreeKind.Leaf | Some PyTreeKind.None => arity node =? 0
  | Some PyTreeKind.Tuple | Some PyTreeKind.List => 0 <=? arity node
  | Some PyTreeKind.Dict =>
      match node_data node with
      | Some (PyList keys) =>
          (size keys =? arity node) && forallb (fun key => py_hashable key) keys
      | _ => false
      end
  | _ => false
  end.

(** A child of a node under reconstruction: its traversal, the leaves it
    takes and the value it is rebuilt to; and under rendering: its
    traversal and its text. *)
Definition rebuilt_child : Type := (list Node * list PyObj * PyObj)%type.
Definition child_nodes (c : rebuilt_child) : list Node := fst (fst c).
Definition child_leaves (c : rebuilt_child) : list PyObj := snd (fst c).
Definition child_value (c : rebuilt_child) : PyObj := snd c.

Definition rendered_child : Type := (list Node * string)%type.

(** The pickle of a leaf in a box, and what the registry that answers
    every type makes of it. *)
Definition boxed_leaf_pickle : PyObj :=
  PyList [PyTuple [PyInt (PyTreeKind.to_tag PyTreeKind.Leaf); PyInt 0; PyNone; PyNone;
                   PyInt 1; PyInt 1];
          PyTuple [PyInt (PyTreeKind.to_tag PyTreeKind.Custom); PyInt 1; PyNone; box_type;
                   PyInt 1; PyInt 2]].

(** A host for classification: every opaque object is an instance of
    the box class, nothing else has a registered class, tuples are the
    only instances of [tuple] and none has [_fields]; the registry files
    the box class as a custom kind. *)
Definition sample_get_type (o : PyObj) : PyObj :=
  match o with
  | PyOpaque _ => box_type
  | _ => PyType 0 "object" None
  end.

Definition sample_isinstance_tuple (o : PyObj) : bool :=
  match o with PyTuple _ => true | _ => false end.

Definition no_fields (o : PyObj) : bool := false.

Definition custom_kind (r : Registration) : Z := PyTreeKind.to_tag PyTreeKind.Custom.

(** A dict key that no list can be, and a registry that answers every
    type with a registration of that type. *)
Definition unhashable_key : PyObj := PyList [PyInt 1].

Definition any_registry (t : PyObj) : option Registration :=
  Some (mkRegistration 0 t (fun data children => Returns (PyTuple (data :: children)))).

(* ------------------------------------------------------------------ *)
(** ** General lemmas *)

Lemma bind_Ok {A B} (m : Exc A) (k : A -> Exc B) (b : B) :
  bind m k = Ok b -> exists a, m = Ok a /\ k a = Ok b.
Proof. destruct m as [a|e]; simpl; intros H; [eauto | discriminate]. Qed.

Lemma for_each_app {S A} (body : S -> A -> Exc S) (l1 l2 : list A) (s : S) :
  for_each body (l1 ++ l2) s = (s' <- for_each body l1 s ;; for_each body l2 s').
Proof.
  revert s; induction l1 as [|x l1 IH]; intros s; simpl; [reflexivity|].
  destruct (body s x) as [s'|e]; simpl; [apply IH | reflexivity].
Qed.

Lemma size_app {A} (l1 l2 : list A) : size (l1 ++ l2) = size l1 + size l2.
Proof. unfold size. rewrite length_app. lia. Qed.

Lemma size_nonneg {A} (l : list A) : 0 <= size l.
Proof. unfold size. lia. Qed.

Lemma of_tag_to_tag (k : PyTreeKind.t) : PyTreeKind.of_tag (PyTreeKind.to_tag k) = Some k.
Proof. destruct k; reflexivity. Qed.

Lemma of_tag_Some (z : Z) (k : PyTreeKind.t) :
  PyTreeKind.of_tag z = Some k -> z = PyTreeKind.to_tag k.
Proof.
  unfold PyTreeKind.of_tag.
  repeat match goal with
         | |- context [?a =? ?b] => destruct (Z.eqb_spec a b); [subst; intros [= <-]; reflexivity|]
         end.
  discriminate.
Qed.

Section ReconstructionFacts.

Variable py_call : PyObj -> list PyObj -> PyResult.

Lemma MakeNode_Ok_arity (node : Node) (children : list PyObj) (out : PyObj) :
  MakeNode py_call node children = Ok out -> size children = arity node.
Proof.
  unfold MakeNode. destruct (Z.eqb_spec (size children) (arity node)); simpl; [auto | discriminate].
Qed.

(** What one successful turn of the reconstruction loop did. *)
Lemma Unflatten_node_Ok (self : PyTreeSpec) (w w' : Walk) (node : Node) :
  Unflatten_node py_call self w node = Ok w' ->
  arity node <= size (agenda w) /\
  ((leaf_like node = true /\
    exists leaf, it w = leaf :: it w' /\ agenda w' = agenda w ++ [leaf] /\
                 leaf_count w' = leaf_count w + 1)
   \/
   (leaf_like node = false /\ 0 <= arity node /\
    exists out,
      MakeNode py_call node (skipn (Z.to_nat (size (agenda w) - arity node)) (agenda w)) = Ok out /\
      agenda w' = firstn (Z.to_nat (size (agenda w) - arity node)) (agenda w) ++ [out] /\
      it w' = it w /\ leaf_count w' = leaf_count w)).
Proof.
  unfold Unflatten_node, leaf_like.
  destruct (Z.ltb_spec (size (agenda w)) (arity node)) as [|Hge]; [discriminate|].
  intros H. split; [exact Hge|].
  destruct (PyTreeKind.of_tag (kind node)) as [[]|]; try discriminate.
  1,2: left; split; [reflexivity|];
       destruct (it w) as [|leaf rest]; [discriminate|];
       injection H as <-; simpl; eauto.
  all: right; split; [reflexivity|];
       apply bind_Ok in H as (out & Hmk & Hw); injection Hw as <-; simpl;
       pose proof (MakeNode_Ok_arity _ _ _ Hmk) as Har;
       destruct (Z.gtb_spec (arity node) 0) as [Hpos|Hneg];
       [ split; [lia|]; exists out; auto
       | assert (arity node = 0) by (unfold size in Har; simpl in Har; lia);
         split; [lia|]; exists out; split; [|auto];
         replace (Z.to_nat (size (agenda w) - arity node)) with (length (agenda w))
           by (unfold size; lia);
         rewrite skipn_all; exact Hmk ].
Qed.

Lemma Unflatten_node_grows (self : PyTreeSpec) (w w' : Walk) (node : Node) :
  Unflatten_node py_call self w node = Ok w' ->
  (length (agenda w') <= length (agenda w) + 1)%nat.
Proof.
  intros H. apply Unflatten_node_Ok in H as (_ & [(_ & leaf & _ & -> & _) | (_ & _ & out & _ & -> & _)]);
    rewrite length_app; simpl; [lia|].
  rewrite length_firstn. lia.
Qed.

Lemma Unflatten_loop_grows (self : PyTreeSpec) (nodes : list Node) (w w' : Walk) :
  Unflatten_loop py_call self nodes w = Ok w' ->
  (length (agenda w') <= length (agenda w) + length nodes)%nat.
Proof.
  unfold Unflatten_loop. revert w; induction nodes as [|node nodes IH]; intros w; simpl.
  - intros [= <-]. lia.
  - intros H. apply bind_Ok in H as (w1 & H1 & H2).
    apply Unflatten_node_grows in H1. apply IH in H2. lia.
Qed.

End ReconstructionFacts.

(** Take a successful run of a sequence of throwing steps apart. *)
Ltac exc_inv H :=
  repeat
    (simpl in H;
     match type of H with
     | bind _ _ = Ok _ => let x := fresh "x" in let Hx := fresh "Hx" in
                          apply bind_Ok in H; destruct H as (x & Hx & H)
     | Throw _ = Ok _ => discriminate H
     | (if ?c then _ else _) = Ok _ => let E := fresh "E" in destruct c eqn:E
     | match ?x with _ => _ end = Ok _ => let E := fresh "E" in destruct x eqn:E
     end).

Section RenderingFacts.

Variable py_repr : PyObj -> string.
Variable py_str : PyObj -> string.

(** What one successful turn of the rendering loop did. *)
Lemma ToString_node_Ok (agenda agenda' : list string) (node : Node) :
  ToString_node py_repr py_str agenda node = Ok agenda' ->
  0 <= arity node <= size agenda /\
  ((PyTreeKind.of_tag (kind node) = Some PyTreeKind.Leaf /\ agenda' = agenda ++ ["*"%string])
   \/
   (PyTreeKind.of_tag (kind node) <> Some PyTreeKind.Leaf /\
    exists representation,
      agenda' = firstn (Z.to_nat (size agenda - arity node)) agenda ++ [representation])).
Proof.
  unfold ToString_node.
  destruct (Z.ltb_spec (size agenda) (arity node)); [discriminate|].
  destruct (Z.ltb_spec (arity node) 0); [discriminate|].
  intros Hrun. split; [lia|].
  destruct (PyTreeKind.of_tag (kind node)) as [[]|]; [left | right .. | discriminate].
  - injection Hrun as <-. auto.
  - split; [discriminate|]. injection Hrun as <-. eauto.
  - split; [discriminate|]. injection Hrun as <-. eauto.
  - split; [discriminate|]. exc_inv Hrun. injection Hrun as <-. eauto.
  - split; [discriminate|]. injection Hrun as <-. eauto.
  - split; [discriminate|]. exc_inv Hrun. injection Hrun as <-. eauto.
  - split; [discriminate|]. exc_inv Hrun; injection Hrun as <-; eauto.
Qed.

Lemma ToString_node_grows (agenda agenda' : list string) (node : Node) :
  ToString_node py_repr py_str agenda node = Ok agenda' ->
  (length agenda' <= length agenda + 1)%nat.
Proof.
  intros H. apply ToString_node_Ok in H as (_ & [(_ & ->) | (_ & r & ->)]);
    rewrite length_app; simpl; [lia|].
  rewrite length_firstn. lia.
Qed.

Lemma ToString_loop_grows (nodes : list Node) (agenda agenda' : list string) :
  ToString_loop py_repr py_str nodes agenda = Ok agenda' ->
  (length agenda' <= length agenda + length nodes)%nat.
Proof.
  unfold ToString_loop. revert agenda; induction nodes as [|node nodes IH]; intros agenda; simpl.
  - intros [= <-]. lia.
  - intros H. apply bind_Ok in H as (a1 & H1 & H2).
    apply ToString_node_grows in H1. apply IH in H2. lia.
Qed.

End RenderingFacts.

(* ------------------------------------------------------------------ *)
(** ** The agenda's size *)

(** C4, as the specification states it, fails: while [nested_pairs], a
    well-formed traversal whose largest arity is 2, is reconstructed or
    rendered, the agenda holds four items after the fourth node. *)
Lemma agenda_exceeds_max_arity :
  exists (w : Walk) (strings : list string),
    well_formed nested_pairs = true /\
    Unflatten_loop no_call nested_pairs (firstn 4 (traversal nested_pairs))
      (mkWalk [] [PyInt 1; PyInt 2; PyInt 3; PyInt 4] 0) = Ok w /\
    ToString_loop quoted quoted (firstn 4 (traversal nested_pairs)) [] = Ok strings /\
    max_arity (traversal nested_pairs) = 2 /\
    size (agenda w) = 4 /\ size strings = 4.
Proof.
  exists (mkWalk [PyInt 1; PyInt 2; PyInt 3; PyInt 4] [] 4), ["*"; "*"; "*"; "*"]%string.
  repeat split; reflexivity.
Qed.

(** C4, amended: at every step of reconstruction and of rendering, the
    agenda holds at most as many items as nodes have been processed so
    far, hence at most as many as the traversal has nodes. *)
Theorem agenda_bounded_by_nodes_processed
    (py_call : PyObj -> list PyObj -> PyResult) (py_repr py_str : PyObj -> string)
    (self : PyTreeSpec) (leaves : list PyObj) (pre post : list Node)
    (w : Walk) (strings : list string) :
  traversal self = pre ++ post ->
  (Unflatten_loop py_call self pre (mkWalk [] leaves 0) = Ok w ->
   (length (agenda w) <= length pre <= length (traversal self))%nat) /\
  (ToString_loop py_repr py_str pre [] = Ok strings ->
   (length strings <= length pre <= length (traversal self))%nat).
Proof.
  intros Hsplit.
  assert (length pre <= length (traversal self))%nat
    by (rewrite Hsplit, length_app; lia).
  split; intros Hrun.
  - apply Unflatten_loop_grows in Hrun. simpl in Hrun. lia.
  - apply ToString_loop_grows in Hrun. simpl in Hrun. lia.
Qed.

Lemma agenda_bounded_by_nodes_processed_witness :
  (length [PyInt 1; PyInt 2; PyInt 3; PyInt 4] <= length (firstn 4 (traversal nested_pairs))
   <= length (traversal nested_pairs))%nat.
Proof.
  exact (proj1 (agenda_bounded_by_nodes_processed no_call quoted quoted nested_pairs
                  [PyInt 1; PyInt 2; PyInt 3; PyInt 4]
                  (firstn 4 (traversal nested_pairs)) (skipn 4 (traversal nested_pairs))
                  (mkWalk [PyInt 1; PyInt 2; PyInt 3; PyInt 4] [] 4) [] eq_refl) eq_refl).
Defined.

(* ------------------------------------------------------------------ *)
(** ** Leaves consumed by reconstruction *)

Lemma for_each_Throw {S A} (body : S -> A -> Exc S) (l : list A) (s : S) (e : Exception) :
  for_each body l s = Throw e <->
  exists pre x post s1,
    l = pre ++ x :: post /\ for_each body pre s = Ok s1 /\ body s1 x = Throw e.
Proof.
  split.
  - revert s; induction l as [|x l IH]; intros s; simpl; [discriminate|].
    destruct (body s x) as [s'|e'] eqn:Hx; simpl.
    + intros H. apply IH in H as (pre & y & post & s1 & -> & Hpre & Hy).
      exists (x :: pre), y, post, s1. simpl. rewrite Hx. simpl. auto.
    + intros [= ->]. exists [], x, l, s. auto.
  - intros (pre & x & post & s1 & -> & Hpre & Hx).
    rewrite for_each_app, Hpre. simpl. rewrite Hx. reflexivity.
Qed.

Lemma of_host_Throw (r : PyResult) (e : Exception) :
  of_host r = Throw e -> exists k, e = PyErr k.
Proof. destruct r; simpl; [discriminate | intros [= <-]; eauto]. Qed.

Lemma MakeNode_dict_loop_Throw (dict : list (PyObj * PyObj)) (keys children : list PyObj)
    (e : Exception) :
  MakeNode_dict_loop dict keys children = Throw e -> exists k, e = PyErr k.
Proof.
  revert dict keys; induction children as [|child children IH]; intros dict keys; simpl;
    [intros H; discriminate H|].
  destruct keys as [|key keys]; [intros [= <-]; eauto|].
  unfold dict_setitem. destruct (py_hashable key); simpl; [apply IH | intros [= <-]; eauto].
Qed.

Section LeafAccounting.

Variable py_call : PyObj -> list PyObj -> PyResult.

(** [MakeNode] throws none of the exceptions of the loop around it. *)
Lemma MakeNode_Throw (node : Node) (children : list PyObj) (e : Exception) :
  MakeNode py_call node children = Throw e ->
  match e with
  | ArityMismatch | MakeNodeLeaf | Unreachable | CastError | PyErr _
  | UndefinedBehaviour => True
  | _ => False
  end.
Proof.
  unfold MakeNode. intros H.
  repeat match type of H with
         | (if ?c then _ else _) = Throw _ => destruct c
         | match ?x with _ => _ end = Throw _ => destruct x eqn:?
         end;
    simpl in H;
    try (injection H as <-; exact I); try discriminate;
    try (apply of_host_Throw in H as (k & ->); exact I).
  all: match type of H with
       | bind ?m _ = _ => destruct m eqn:Hloop; simpl in H; [discriminate|];
                          injection H as <-;
                          apply MakeNode_dict_loop_Throw in Hloop as (k & ->); exact I
       end.
Qed.

(** Why one turn of the reconstruction loop throws. *)
Lemma Unflatten_node_Throw (self : PyTreeSpec) (w : Walk) (node : Node) (e : Exception) :
  Unflatten_node py_call self w node = Throw e ->
  (size (agenda w) < arity node /\ e = TooFewElements)
  \/ (arity node <= size (agenda w) /\ leaf_like node = true /\ it w = [] /\
      e = TooFewLeaves (PyTreeSpec_num_leaves self) (leaf_count w))
  \/ (arity node <= size (agenda w) /\ leaf_like node = false /\
      match e with
      | ArityMismatch | MakeNodeLeaf | Unreachable | CastError | PyErr _
      | UndefinedBehaviour => True
      | _ => False
      end).
Proof.
  unfold Unflatten_node, leaf_like.
  destruct (Z.ltb_spec (size (agenda w)) (arity node)) as [Hlt|Hge];
    [intros [= <-]; auto|].
  intros H. right.
  destruct (PyTreeKind.of_tag (kind node)) as [[]|].
  1,2: left; destruct (it w); [injection H as <-; auto | discriminate].
  6: right; injection H as <-; auto.
  all: right; repeat split; auto;
       match type of H with
       | bind ?m _ = _ => destruct m eqn:Hmk; simpl in H; [discriminate|];
                          injection H as <-; exact (MakeNode_Throw _ _ _ Hmk)
       end.
Qed.

Lemma Unflatten_node_leaf_like (self : PyTreeSpec) (w : Walk) (node : Node) :
  leaf_like node = true -> arity node <= size (agenda w) ->
  Unflatten_node py_call self w node =
    match it w with
    | [] => Throw (TooFewLeaves (PyTreeSpec_num_leaves self) (leaf_count w))
    | leaf :: rest => Ok (mkWalk (agenda w ++ [leaf]) rest (leaf_count w + 1))
    end.
Proof.
  unfold Unflatten_node, leaf_like. intros Hk Hge.
  destruct (Z.ltb_spec (size (agenda w)) (arity node)); [lia|].
  destruct (PyTreeKind.of_tag (kind node)) as [[]|]; try discriminate; reflexivity.
Qed.

(** A successful run over [nodes] takes one leaf for each [Leaf] and
    each [None] among them, from the front of what is left. *)
Lemma Unflatten_loop_consumes (self : PyTreeSpec) (nodes : list Node) (w w' : Walk) :
  Unflatten_loop py_call self nodes w = Ok w' ->
  exists consumed,
    it w = consumed ++ it w' /\
    length consumed = length (filter leaf_like nodes) /\
    leaf_count w' = leaf_count w + Z.of_nat (length (filter leaf_like nodes)).
Proof.
  unfold Unflatten_loop. revert w; induction nodes as [|node nodes IH]; intros w; simpl.
  - intros [= <-]. exists []. simpl. repeat split; lia.
  - intros H. apply bind_Ok in H as (w1 & H1 & H2).
    apply IH in H2 as (consumed & Hit & Hlen & Hcount).
    apply Unflatten_node_Ok in H1
      as (_ & [(-> & leaf & Hit1 & _ & Hc1) | (-> & _ & out & _ & _ & Hit1 & Hc1)]).
    + exists (leaf :: consumed). simpl. rewrite Hit1, Hit. repeat split; lia.
    + exists consumed. rewrite <- Hit1, Hit. repeat split; lia.
Qed.

End LeafAccounting.




(* ------------------------------------------------------------------ *)
(** ** The errors of reconstruction *)

Section LeafErrors.

Variable py_call : PyObj -> list PyObj -> PyResult.
Variable self : PyTreeSpec.

(** A node that is not served from [leaves] does not look at them. *)
Lemma Unflatten_node_ignores_leaves (ag l l' : list PyObj) (c : Z) (node : Node) :
  leaf_like node = false ->
  Unflatten_node py_call self (mkWalk ag l c) node =
    match Unflatten_node py_call self (mkWalk ag l' c) node with
    | Ok w => Ok (mkWalk (agenda w) l (leaf_count w))
    | Throw e => Throw e
    end.
Proof.
  unfold Unflatten_node, leaf_like; simpl. intros Hk.
  destruct (size ag <? arity node); [reflexivity|].
  destruct (PyTreeKind.of_tag (kind node)) as [[]|]; try discriminate; try reflexivity.
  all: match goal with |- context [MakeNode ?f ?n ?s] => destruct (MakeNode f n s) end;
       reflexivity.
Qed.

(** Leaves appended to the sequence are left over by a walk that
    completes. *)
Lemma Unflatten_loop_longer (nodes : list Node) (ag l extra : list PyObj) (c : Z) (w : Walk) :
  Unflatten_loop py_call self nodes (mkWalk ag l c) = Ok w ->
  Unflatten_loop py_call self nodes (mkWalk ag (l ++ extra) c) =
    Ok (mkWalk (agenda w) (it w ++ extra) (leaf_count w)).
Proof.
  unfold Unflatten_loop. revert ag l c; induction nodes as [|node nodes IH]; intros ag l c; simpl.
  - intros [= <-]. reflexivity.
  - intros H. apply bind_Ok in H as (w1 & H1 & H2).
    destruct (leaf_like node) eqn:Hk.
    + pose proof (Unflatten_node_Ok _ _ _ _ _ H1) as (Hge & _).
      rewrite Unflatten_node_leaf_like in H1 |- * by assumption. simpl in *.
      destruct l as [|leaf rest]; [discriminate|]. injection H1 as <-. simpl.
      apply IH. exact H2.
    + pose proof (Unflatten_node_Ok _ _ _ _ _ H1)
        as (_ & [(Hk' & _) | (_ & _ & _ & _ & _ & Hit & _)]); [congruence|].
      rewrite (Unflatten_node_ignores_leaves ag (l ++ extra) l c node Hk), H1. simpl.
      destruct w1 as [ag1 l1 c1]. simpl in *. subst l1. apply IH. exact H2.
Qed.

(** Cut short, the sequence runs out at a node served from it. *)
Lemma Unflatten_loop_shorter (nodes : list Node) (ag shorter dropped : list PyObj) (c : Z)
    (w : Walk) :
  dropped <> [] ->
  Unflatten_loop py_call self nodes (mkWalk ag (shorter ++ dropped) c) = Ok w ->
  it w = [] ->
  Unflatten_loop py_call self nodes (mkWalk ag shorter c) =
    Throw (TooFewLeaves (PyTreeSpec_num_leaves self) (c + size shorter)).
Proof.
  unfold Unflatten_loop. intros Hne.
  revert ag shorter c; induction nodes as [|node nodes IH]; intros ag shorter c; simpl.
  - intros [= <-]. simpl. intros H. apply app_eq_nil in H as (_ & H). contradiction.
  - intros H Hend. apply bind_Ok in H as (w1 & H1 & H2).
    destruct (leaf_like node) eqn:Hk.
    + pose proof (Unflatten_node_Ok _ _ _ _ _ H1) as (Hge & _).
      rewrite Unflatten_node_leaf_like in H1 |- * by assumption. simpl in *.
      destruct shorter as [|leaf rest]; simpl in *.
      * f_equal. f_equal. unfold size. simpl. lia.
      * injection H1 as <-. rewrite (IH _ _ _ H2 Hend).
        f_equal. f_equal. unfold size. simpl length. lia.
    + pose proof (Unflatten_node_Ok _ _ _ _ _ H1)
        as (_ & [(Hk' & _) | (_ & _ & _ & _ & _ & Hit & Hc)]); [congruence|].
      rewrite (Unflatten_node_ignores_leaves ag shorter (shorter ++ dropped) c node Hk), H1.
      simpl. destruct w1 as [ag1 l1 c1]. simpl in *. subst l1 c1. apply IH; assumption.
Qed.

Lemma Unflatten_loop_Throw (nodes : list Node) (w : Walk) (e : Exception) :
  Unflatten_loop py_call self nodes w = Throw e ->
  match e with
  | TooManyLeaves _ | NotSingleton => False
  | _ => True
  end.
Proof.
  unfold Unflatten_loop. intros H.
  apply for_each_Throw in H as (pre & node & post & w1 & _ & _ & H).
  apply Unflatten_node_Throw in H as [(_ & ->) | [(_ & _ & _ & ->) | (_ & _ & H)]];
    try exact I.
  destruct e; auto.
Qed.

End LeafErrors.

(** C6: reconstruction throws "Too few leaves" exactly when the walk
    reaches a node served from the leaf sequence (with the agenda deep
    enough for its arity) and no leaf is left; once the walk is over it
    throws "Too many leaves" exactly when leaves are left, and "did not
    yield a singleton" exactly when none is left and the agenda does not
    hold one item.  Hence, when a sequence reconstructs, every longer one
    fails with "Too many leaves" and every shorter one with "Too few
    leaves". *)
Theorem Unflatten_leaf_count_errors
    (py_call : PyObj -> list PyObj -> PyResult) (self : PyTreeSpec) (leaves : list PyObj) :
  (forall expected got,
      UnflattenImpl py_call self leaves = Throw (TooFewLeaves expected got) <->
      exists pre node post w,
        traversal self = pre ++ node :: post /\
        Unflatten_loop py_call self pre (mkWalk [] leaves 0) = Ok w /\
        arity node <= size (agenda w) /\ leaf_like node = true /\ it w = [] /\
        expected = PyTreeSpec_num_leaves self /\ got = leaf_count w) /\
  (forall expected,
      UnflattenImpl py_call self leaves = Throw (TooManyLeaves expected) <->
      exists w,
        Unflatten_loop py_call self (traversal self) (mkWalk [] leaves 0) = Ok w /\
        it w <> [] /\ expected = PyTreeSpec_num_leaves self) /\
  (UnflattenImpl py_call self leaves = Throw NotSingleton <->
   exists w,
     Unflatten_loop py_call self (traversal self) (mkWalk [] leaves 0) = Ok w /\
     it w = [] /\ size (agenda w) <> 1) /\
  (forall out,
      UnflattenImpl py_call self leaves = Ok out ->
      (forall extra, extra <> [] ->
         UnflattenImpl py_call self (leaves ++ extra) =
           Throw (TooManyLeaves (PyTreeSpec_num_leaves self))) /\
      (forall shorter dropped, leaves = shorter ++ dropped -> dropped <> [] ->
         UnflattenImpl py_call self shorter =
           Throw (TooFewLeaves (PyTreeSpec_num_leaves self) (size shorter)))).
Proof.
  split; [|split; [|split]].
  - intros expected got. split.
    + unfold UnflattenImpl.
      destruct (Unflatten_loop py_call self (traversal self) (mkWalk [] leaves 0))
        as [w|e] eqn:Hloop; simpl.
      * destruct (it w); [|discriminate].
        destruct (negb (size (agenda w) =? 1)); discriminate.
      * intros [= ->]. unfold Unflatten_loop in Hloop.
        apply for_each_Throw in Hloop as (pre & node & post & w1 & Hsplit & Hpre & Hnode).
        apply Unflatten_node_Throw in Hnode
          as [(_ & [=]) | [(Hge & Hk & Hit & [= -> ->]) | (_ & _ & [])]].
        exists pre, node, post, w1. auto 10.
    + intros (pre & node & post & w & Hsplit & Hpre & Hge & Hk & Hit & -> & ->).
      unfold UnflattenImpl, Unflatten_loop in *.
      rewrite Hsplit, for_each_app, Hpre. simpl.
      rewrite Unflatten_node_leaf_like, Hit by assumption. reflexivity.
  - intros expected. split.
    + unfold UnflattenImpl.
      destruct (Unflatten_loop py_call self (traversal self) (mkWalk [] leaves 0))
        as [w|e] eqn:Hloop; simpl.
      * destruct (it w) eqn:Hit.
        -- destruct (negb (size (agenda w) =? 1)); discriminate.
        -- intros [= <-]. exists w. rewrite Hit. repeat split; congruence.
      * intros [= ->]. apply Unflatten_loop_Throw in Hloop. contradiction.
    + intros (w & Hloop & Hit & ->). unfold UnflattenImpl. rewrite Hloop. simpl.
      destruct (it w); [contradiction | reflexivity].
  - split.
    + unfold UnflattenImpl.
      destruct (Unflatten_loop py_call self (traversal self) (mkWalk [] leaves 0))
        as [w|e] eqn:Hloop; simpl.
      * destruct (it w) eqn:Hit; [|discriminate].
        destruct (Z.eqb_spec (size (agenda w)) 1); simpl; [discriminate|].
        intros _. exists w. auto.
      * intros [= ->]. apply Unflatten_loop_Throw in Hloop. contradiction.
    + intros (w & Hloop & Hit & Hsize). unfold UnflattenImpl. rewrite Hloop. simpl.
      rewrite Hit. destruct (Z.eqb_spec (size (agenda w)) 1); [contradiction | reflexivity].
  - intros out H. unfold UnflattenImpl in H. apply bind_Ok in H as (w & Hloop & Hend).
    destruct (it w) eqn:Hit; [|discriminate]. split.
    + intros extra Hne. unfold UnflattenImpl.
      rewrite (Unflatten_loop_longer _ _ _ _ _ extra _ _ Hloop). simpl. rewrite Hit. simpl.
      destruct extra; [contradiction | reflexivity].
    + intros shorter dropped -> Hne. unfold UnflattenImpl.
      rewrite (Unflatten_loop_shorter _ _ _ _ _ _ _ _ Hne Hloop Hit). reflexivity.
Qed.

Lemma Unflatten_leaf_count_errors_witness :
  UnflattenImpl no_call triple [PyInt 1; PyInt 2] = Throw (TooFewLeaves 3 2) /\
  UnflattenImpl no_call triple [PyInt 1; PyInt 2; PyInt 3; PyInt 4] = Throw (TooManyLeaves 3).
Proof.
  destruct (proj2 (proj2 (proj2
              (Unflatten_leaf_count_errors no_call triple [PyInt 1; PyInt 2; PyInt 3])))
              (PyTuple [PyInt 1; PyInt 2; PyInt 3]) eq_refl) as [Hlonger Hshorter].
  split.
  - apply (Hshorter [PyInt 1; PyInt 2] [PyInt 3]); [reflexivity | discriminate].
  - apply (Hlonger [PyInt 4]). discriminate.
Defined.

(* ------------------------------------------------------------------ *)
(** ** The empty traversal *)

(** C8, as stated, fails on a leaf sequence that is not empty: the empty
    traversal is then refused for its leaves, not for its agenda. *)
Lemma empty_spec_with_a_leaf :
  UnflattenImpl no_call (mkSpec []) [PyInt 1] = Throw (TooManyLeaves 0) /\
  UnflattenImpl no_call (mkSpec []) [PyInt 1] <> Throw NotSingleton.
Proof. split; [reflexivity | discriminate]. Qed.

(** C8, amended: the empty traversal is accepted by deserialization, has
    0 leaves, and is rejected by no operation up front; reconstructing it
    always fails: from the empty leaf sequence because the agenda is not
    a singleton, from any other because leaves are left over.  Rendering
    it fails because the agenda is not a singleton. *)
Theorem empty_spec_behaviour
    (py_call : PyObj -> list PyObj -> PyResult) (py_repr py_str : PyObj -> string)
    (Lookup : PyObj -> option Registration) :
  FromPicklableImpl Lookup (PyList []) = Ok (mkSpec []) /\
  PyTreeSpec_num_leaves (mkSpec []) = 0 /\
  PyTreeSpec_num_nodes (mkSpec []) = 0 /\
  UnflattenImpl py_call (mkSpec []) [] = Throw NotSingleton /\
  (forall leaf leaves,
      UnflattenImpl py_call (mkSpec []) (leaf :: leaves) = Throw (TooManyLeaves 0)) /\
  ToString py_repr py_str (mkSpec []) = Throw NotSingleton /\
  PyTreeSpec_eq (mkSpec []) (mkSpec []) = true.
Proof. repeat split; reflexivity. Qed.

(* ------------------------------------------------------------------ *)
(** ** Equality of host values *)

(** Induction over [PyObj] with the hypotheses for the elements of the
    sequences and the entries of the mappings. *)
Lemma PyObj_nested_ind (P : PyObj -> Prop) :
  P PyNone ->
  (forall z, P (PyInt z)) ->
  (forall s, P (PyStr s)) ->
  (forall items, Forall P items -> P (PyTuple items)) ->
  (forall items, Forall P items -> P (PyList items)) ->
  (forall entries, Forall (fun e => P (fst e) /\ P (snd e)) entries -> P (PyDict entries)) ->
  (forall id name fields, P (PyType id name fields)) ->
  (forall id, P (PyOpaque id)) ->
  forall o, P o.
Proof.
  intros HNone HInt HStr HTuple HList HDict HType HOpaque.
  fix IH 1. intros [ |z|s|items|items|entries|id name fields|id].
  - exact HNone.
  - apply HInt.
  - apply HStr.
  - apply HTuple. induction items as [|x items IHitems]; constructor; [apply IH | exact IHitems].
  - apply HList. induction items as [|x items IHitems]; constructor; [apply IH | exact IHitems].
  - apply HDict. induction entries as [|[k v] entries IHentries]; constructor;
      [split; apply IH | exact IHentries].
  - apply HType.
  - apply HOpaque.
Qed.

Lemma list_eqb_refl {A} (eqb : A -> A -> bool) (l : list A) :
  Forall (fun x => eqb x x = true) l -> list_eqb eqb l l = true.
Proof. induction 1 as [|x l Hx _ IH]; simpl; [reflexivity | rewrite Hx, IH; reflexivity]. Qed.

Lemma py_eqb_refl (o : PyObj) : py_eqb o o = true.
Proof.
  induction o using PyObj_nested_ind; simpl;
    try reflexivity; try apply Z.eqb_refl; try apply String.eqb_refl;
    try apply Nat.eqb_refl; try (apply list_eqb_refl; assumption).
  rewrite Nat.eqb_refl. simpl.
  apply forallb_forall. intros e Hin. apply existsb_exists. exists e. split; [exact Hin|].
  rewrite Forall_forall in H. destruct (H e Hin) as [-> ->]. reflexivity.
Qed.

Lemma list_eqb_sym {A} (eqb : A -> A -> bool) (xs ys : list A) :
  Forall (fun x => forall y, eqb x y = eqb y x) xs -> list_eqb eqb xs ys = list_eqb eqb ys xs.
Proof.
  intros H; revert ys; induction H as [|x xs Hx _ IH]; intros [|y ys]; simpl; try reflexivity.
  rewrite Hx, IH. reflexivity.
Qed.

Lemma list_eqb_trans {A} (eqb : A -> A -> bool) (xs ys zs : list A) :
  Forall (fun x => forall y z, eqb x y = true -> eqb y z = true -> eqb x z = true) xs ->
  list_eqb eqb xs ys = true -> list_eqb eqb ys zs = true -> list_eqb eqb xs zs = true.
Proof.
  intros H; revert ys zs; induction H as [|x xs Hx _ IH]; intros [|y ys] [|z zs]; simpl;
    try discriminate; try reflexivity.
  intros [H1 H2]%andb_prop [H3 H4]%andb_prop.
  rewrite (Hx _ _ H1 H3), (IH _ _ H2 H4). reflexivity.
Qed.

Lemma Forall_hashable (P : PyObj -> Prop) (items : list PyObj) :
  Forall (fun x => py_hashable x = true -> P x) items ->
  forallb (fun x => py_hashable x) items = true -> Forall P items.
Proof.
  induction 1 as [|x l Hx _ IH]; simpl; [constructor|].
  intros [H1 H2]%andb_prop. constructor; auto.
Qed.

(** On the objects that can be keys, [==] is symmetric and transitive. *)
Lemma py_eqb_sym (a : PyObj) :
  py_hashable a = true -> forall b, py_eqb a b = py_eqb b a.
Proof.
  induction a using PyObj_nested_ind; simpl; intros Hh b; try discriminate;
    destruct b; simpl; try reflexivity;
    try apply Z.eqb_sym; try apply String.eqb_sym; try apply Nat.eqb_sym.
  apply list_eqb_sym. exact (Forall_hashable _ _ H Hh).
Qed.

Lemma py_eqb_trans (a : PyObj) :
  py_hashable a = true ->
  forall b c, py_eqb a b = true -> py_eqb b c = true -> py_eqb a c = true.
Proof.
  induction a using PyObj_nested_ind; simpl; intros Hh b c; try discriminate;
    destruct b; simpl; try discriminate; destruct c; simpl; try discriminate; try reflexivity.
  - intros ->%Z.eqb_eq. auto.
  - intros ->%String.eqb_eq. auto.
  - apply list_eqb_trans. exact (Forall_hashable _ _ H Hh).
  - intros ->%Nat.eqb_eq. auto.
  - intros ->%Nat.eqb_eq. auto.
Qed.

Lemma py_eqb_congr (x y z : PyObj) :
  py_hashable x = true -> py_hashable y = true ->
  py_eqb x y = true -> py_eqb x z = py_eqb y z.
Proof.
  intros Hx Hy Hxy.
  destruct (py_eqb y z) eqn:Hyz.
  - exact (py_eqb_trans x Hx y z Hxy Hyz).
  - destruct (py_eqb x z) eqn:Hxz; [|reflexivity].
    rewrite py_eqb_sym in Hxy by assumption.
    rewrite (py_eqb_trans y Hy x z Hxy Hxz) in Hyz. discriminate.
Qed.

(* ------------------------------------------------------------------ *)
(** ** Dict nodes whose key list repeats a key *)

Lemma dict_assign_length (d : list (PyObj * PyObj)) (k c : PyObj) :
  length (dict_assign d k c) = if dict_contains d k then length d else S (length d).
Proof.
  induction d as [|[k0 v0] d IH]; simpl; [reflexivity|].
  destruct (py_eqb k0 k); simpl; [reflexivity|]. rewrite IH.
  destruct (dict_contains d k); reflexivity.
Qed.

Lemma dict_assign_keeps (d : list (PyObj * PyObj)) (k c key : PyObj) :
  dict_contains d key = true -> dict_contains (dict_assign d k c) key = true.
Proof.
  induction d as [|[k0 v0] d IH]; simpl; [discriminate|].
  destruct (py_eqb k0 k); simpl; [auto|].
  destruct (py_eqb k0 key); simpl; auto.
Qed.

Lemma dict_assign_hashable (d : list (PyObj * PyObj)) (k c : PyObj) :
  py_hashable k = true -> keys_hashable d -> keys_hashable (dict_assign d k c).
Proof.
  unfold keys_hashable. intros Hk.
  induction d as [|[k0 v0] d IH]; simpl; [rewrite Hk; reflexivity|].
  intros [H0 Hd]%andb_prop. simpl in H0.
  destruct (py_eqb k0 k); simpl; rewrite H0; simpl; auto.
Qed.

Lemma dict_assign_binds (d : list (PyObj * PyObj)) (k c key : PyObj) :
  py_hashable k = true -> keys_hashable d -> py_eqb k key = true ->
  dict_contains (dict_assign d k c) key = true.
Proof.
  unfold keys_hashable. intros Hk Hd Heq. revert Hd.
  induction d as [|[k0 v0] d IH]; simpl; [rewrite Heq; reflexivity|].
  intros [H0 Hd]%andb_prop. simpl in H0.
  destruct (py_eqb k0 k) eqn:E; simpl.
  - rewrite (py_eqb_congr k0 k key H0 Hk E), Heq. reflexivity.
  - rewrite (IH Hd). apply orb_true_r.
Qed.

Lemma dict_getitem_assign (d : list (PyObj * PyObj)) (k c key : PyObj) :
  py_hashable k = true -> py_hashable key = true -> keys_hashable d ->
  dict_getitem (dict_assign d k c) key =
    if py_eqb k key then Some c else dict_getitem d key.
Proof.
  unfold keys_hashable, dict_getitem. intros Hk Hkey.
  induction d as [|[k0 v0] d IH]; simpl.
  - intros _. destruct (py_eqb k key); reflexivity.
  - intros [H0 Hd]%andb_prop. simpl in H0.
    destruct (py_eqb k0 k) eqn:E; simpl.
    + rewrite (py_eqb_congr k0 k key H0 Hk E).
      destruct (py_eqb k key); reflexivity.
    + destruct (py_eqb k0 key) eqn:E0; simpl.
      * destruct (py_eqb k key) eqn:E1; [|reflexivity].
        assert (py_eqb key k = true) as E2 by (rewrite py_eqb_sym by assumption; exact E1).
        rewrite (py_eqb_trans k0 H0 key k E0 E2) in E. discriminate.
      * apply IH. exact Hd.
Qed.

(** The loop over the keys succeeds on hashable keys, and binds each key
    to the child of its last occurrence. *)
Lemma MakeNode_dict_loop_Ok (children keys : list PyObj) (dict : list (PyObj * PyObj)) :
  length keys = length children ->
  forallb (fun x => py_hashable x) keys = true ->
  keys_hashable dict ->
  exists dict',
    MakeNode_dict_loop dict keys children = Ok dict' /\
    keys_hashable dict' /\
    (forall key, py_hashable key = true ->
       dict_getitem dict' key =
         match last_bound keys children key with
         | Some child => Some child
         | None => dict_getitem dict key
         end) /\
    (length dict' <= length dict + length keys)%nat /\
    (existsb (dict_contains dict) keys || has_duplicate keys = true ->
     (length dict' < length dict + length keys)%nat) /\
    (forall key, dict_contains dict key = true -> dict_contains dict' key = true).
Proof.
  revert keys dict; induction children as [|child children IH]; intros [|k keys] dict;
    simpl; try discriminate.
  - intros _ _ Hd. exists dict. repeat split; auto; [lia | discriminate].
  - intros [= Hlen] [Hk Hkeys]%andb_prop Hd.
    unfold dict_setitem. rewrite Hk. simpl.
    pose proof (dict_assign_hashable dict k child Hk Hd) as Hd1.
    destruct (IH keys _ Hlen Hkeys Hd1) as (dict' & Hrun & Hh & Hget & Hle & Hlt & Hkeep).
    pose proof (dict_assign_length dict k child) as Hlen1.
    exists dict'. split; [exact Hrun|]. split; [exact Hh|]. split; [|split; [|split]].
    + intros key Hkey. rewrite (Hget key Hkey).
      rewrite (dict_getitem_assign dict k child key Hk Hkey Hd).
      destruct (last_bound keys children key); [reflexivity|].
      destruct (py_eqb k key); reflexivity.
    + destruct (dict_contains dict k); lia.
    + intros Hcollide. destruct (dict_contains dict k) eqn:Hin; [lia|].
      simpl in Hcollide. rewrite Hlen1 in Hlt.
      enough (existsb (dict_contains (dict_assign dict k child)) keys
              || has_duplicate keys = true) as Hc by (apply Hlt in Hc; lia).
      apply orb_true_iff in Hcollide as [Hc|Hc];
        [|apply orb_true_iff in Hc as [Hc|Hc]].
      * apply orb_true_iff. left. apply existsb_exists in Hc as (k' & Hin' & Hc).
        apply existsb_exists. exists k'. split; [exact Hin'|].
        apply dict_assign_keeps. exact Hc.
      * apply orb_true_iff. left. apply existsb_exists in Hc as (k' & Hin' & Hc).
        apply existsb_exists. exists k'. split; [exact Hin'|].
        apply dict_assign_binds; assumption.
      * apply orb_true_iff. right. exact Hc.
    + intros key Hin. apply Hkeep. apply dict_assign_keeps. exact Hin.
Qed.

(** C9: a Dict node whose key list (of hashable keys, as long as the
    arity) repeats a key is rebuilt without error; the children are
    assigned in the order of the keys, so each key ends up bound to the
    child of its last occurrence and the dict has fewer entries than the
    arity, while the agenda loses exactly [arity] items for the one dict
    pushed. *)
Theorem MakeNode_dict_repeated_keys
    (py_call : PyObj -> list PyObj -> PyResult) (self : PyTreeSpec)
    (node : Node) (keys : list PyObj) (w : Walk) :
  is_kind PyTreeKind.Dict node = true ->
  node_data node = Some (PyList keys) ->
  size keys = arity node ->
  forallb (fun key => py_hashable key) keys = true ->
  arity node <= size (agenda w) ->
  exists dict,
    MakeNode py_call node (skipn (Z.to_nat (size (agenda w) - arity node)) (agenda w))
      = Ok (PyDict dict) /\
    Unflatten_node py_call self w node =
      Ok (mkWalk (firstn (Z.to_nat (size (agenda w) - arity node)) (agenda w) ++ [PyDict dict])
                 (it w) (leaf_count w)) /\
    size (firstn (Z.to_nat (size (agenda w) - arity node)) (agenda w))
      = size (agenda w) - arity node /\
    (forall key, py_hashable key = true ->
       dict_getitem dict key =
         last_bound keys (skipn (Z.to_nat (size (agenda w) - arity node)) (agenda w)) key) /\
    size dict <= arity node /\
    (has_duplicate keys = true -> size dict < arity node).
Proof.
  intros Hkind Hdata Hsize Hhash Hge.
  apply Z.eqb_eq in Hkind.
  set (first := Z.to_nat (size (agenda w) - arity node)).
  set (children := skipn first (agenda w)).
  assert (Hnonneg : 0 <= arity node) by (rewrite <- Hsize; apply size_nonneg).
  assert (Hchildren : length children = length keys).
  { unfold children, first. rewrite length_skipn. unfold size in *. lia. }
  destruct (MakeNode_dict_loop_Ok children keys [] (eq_sym Hchildren) Hhash eq_refl)
    as (dict & Hrun & _ & Hget & Hle & Hlt & _).
  assert (Hmk : MakeNode py_call node children = Ok (PyDict dict)).
  { unfold MakeNode. replace (size children =? arity node) with true
      by (symmetry; apply Z.eqb_eq; unfold size in *; lia).
    simpl. rewrite Hkind. simpl. rewrite Hdata, Hrun. reflexivity. }
  exists dict. split; [exact Hmk|]. split; [|split; [|split; [|split]]].
  - unfold Unflatten_node.
    destruct (Z.ltb_spec (size (agenda w)) (arity node)); [lia|].
    rewrite Hkind. simpl. fold first.
    replace (if arity node >? 0 then skipn first (agenda w) else []) with children.
    + rewrite Hmk. reflexivity.
    + destruct (Z.gtb_spec (arity node) 0); [reflexivity|].
      unfold children, first.
      replace (Z.to_nat (size (agenda w) - arity node)) with (length (agenda w))
        by (unfold size; lia).
      apply skipn_all.
  - unfold first, size in *. rewrite length_firstn. lia.
  - intros key Hkey. rewrite (Hget key Hkey).
    destruct (last_bound keys children key); reflexivity.
  - unfold size in *. simpl in Hle. lia.
  - intros Hdup. unfold size in *. simpl in Hlt.
    rewrite Hdup, orb_true_r in Hlt. specialize (Hlt eq_refl). lia.
Qed.

Lemma MakeNode_dict_repeated_keys_witness :
  exists dict,
    MakeNode no_call repeated_key_node [PyInt 1; PyInt 2] = Ok (PyDict dict) /\
    dict_getitem dict (PyStr "a") = Some (PyInt 2) /\
    size dict < 2.
Proof.
  destruct (MakeNode_dict_repeated_keys no_call (mkSpec [leaf_node; leaf_node; repeated_key_node])
              repeated_key_node [PyStr "a"; PyStr "a"] (mkWalk [PyInt 1; PyInt 2] [] 2)
              eq_refl eq_refl eq_refl eq_refl ltac:(discriminate))
    as (dict & Hmk & _ & _ & Hget & _ & Hlt).
  exists dict. split; [exact Hmk|]. split; [exact (Hget (PyStr "a") eq_refl) | exact (Hlt eq_refl)].
Defined.

(* ------------------------------------------------------------------ *)
(** ** Structural equality *)

Lemma same_registration_refl (r : option Registration) : same_registration r r = true.
Proof. destruct r; simpl; [apply Nat.eqb_refl | reflexivity]. Qed.

Lemma eq_loop_head (x y : Node) (a b : list Node) :
  eq_loop (x :: a) (y :: b) = true <-> nodes_agree x y /\ eq_loop a b = true.
Proof.
  unfold nodes_agree. simpl.
  destruct (Z.eqb_spec (kind x) (kind y)) as [Hk|Hk]; simpl; [|intuition congruence].
  destruct (Z.eqb_spec (arity x) (arity y)) as [Ha|Ha]; simpl; [|intuition congruence].
  destruct (same_registration (custom x) (custom y)); simpl;
    [|rewrite orb_true_r; intuition congruence].
  rewrite orb_false_r.
  destruct (node_data x) as [dx|], (node_data y) as [dy|]; simpl.
  - destruct (py_eqb dx dy) eqn:E; simpl.
    + split; [|intros [_ H]; exact H].
      intros H. repeat split; auto; try discriminate.
      intros ? ? [= <-] [= <-]. exact E.
    + split; [discriminate|]. intros ((_ & _ & _ & H & _) & _).
      specialize (H dx dy eq_refl eq_refl). congruence.
  - split; [discriminate|]. intros ((_ & _ & [_ H] & _) & _). specialize (H eq_refl). discriminate.
  - split; [discriminate|]. intros ((_ & _ & [H _] & _) & _). specialize (H eq_refl). discriminate.
  - intuition congruence.
Qed.

Lemma eq_loop_Forall2 (a b : list Node) :
  length a = length b -> (eq_loop a b = true <-> Forall2 nodes_agree a b).
Proof.
  revert b; induction a as [|x a IH]; intros [|y b]; try discriminate.
  - intros _. simpl. split; auto.
  - intros [= Hlen]. rewrite eq_loop_head, (IH b Hlen). split.
    + intros [H1 H2]. constructor; assumption.
    + intros H. inversion H; subst. auto.
Qed.

Lemma same_but_counts_agree (x y : Node) : same_but_counts x y -> nodes_agree x y.
Proof.
  intros (Hk & Ha & Hd & Hc). unfold nodes_agree. rewrite Hk, Ha, Hd, Hc.
  repeat split; auto.
  - intros dx dy -> [= ->]. apply py_eqb_refl.
  - apply same_registration_refl.
Qed.

Lemma PyTreeSpec_eq_iff (self other : PyTreeSpec) :
  PyTreeSpec_eq self other = true <->
  length (traversal self) = length (traversal other) /\
  Forall2 nodes_agree (traversal self) (traversal other).
Proof.
  unfold PyTreeSpec_eq.
  destruct (Z.eqb_spec (size (traversal self)) (size (traversal other))) as [Hs|Hs]; simpl.
  - assert (Hlen : length (traversal self) = length (traversal other))
      by (unfold size in Hs; lia).
    rewrite (eq_loop_Forall2 _ _ Hlen). intuition.
  - split; [discriminate|]. intros [Hlen _]. unfold size in Hs. lia.
Qed.

Lemma PyTreeSpec_eq_refl (self : PyTreeSpec) : PyTreeSpec_eq self self = true.
Proof.
  apply PyTreeSpec_eq_iff. split; [reflexivity|].
  induction (traversal self) as [|node nodes IH]; constructor; [|exact IH].
  apply same_but_counts_agree. repeat split.
Qed.

(** C5: [operator==] is false on traversals of different sizes; on
    traversals of one size it is true exactly when the nodes agree,
    position by position, on kind, arity, presence of [node_data], its
    value when present, and registration; [num_leaves] and [num_nodes]
    take no part, so traversals that differ only in them are equal. *)
Theorem PyTreeSpec_eq_spec (self other : PyTreeSpec) :
  (size (traversal self) <> size (traversal other) -> PyTreeSpec_eq self other = false) /\
  (PyTreeSpec_eq self other = true <->
   length (traversal self) = length (traversal other) /\
   Forall2 nodes_agree (traversal self) (traversal other)) /\
  (Forall2 same_but_counts (traversal self) (traversal other) ->
   PyTreeSpec_eq self other = true).
Proof.
  pose proof (PyTreeSpec_eq_iff self other) as Hmain.
  split; [|split; [exact Hmain|]].
  - intros Hs. unfold PyTreeSpec_eq.
    destruct (Z.eqb_spec (size (traversal self)) (size (traversal other))); [contradiction|].
    reflexivity.
  - intros H. apply Hmain. split.
    + exact (Forall2_length H).
    + eapply Forall2_impl; [|exact H]. exact same_but_counts_agree.
Qed.

Lemma PyTreeSpec_eq_spec_witness :
  PyTreeSpec_eq dict_of_list_and_none
    (mkSpec (map (fun node => mkNode (kind node) (arity node) (node_data node) (custom node) 7 9)
                 (traversal dict_of_list_and_none))) = true /\
  PyTreeSpec_eq triple nested_pairs = false.
Proof.
  split.
  - apply (proj2 (proj2 (PyTreeSpec_eq_spec dict_of_list_and_none _))).
    simpl. repeat constructor.
  - apply (proj1 (PyTreeSpec_eq_spec triple nested_pairs)). discriminate.
Defined.

(* ------------------------------------------------------------------ *)
(** ** The pickle codec *)

Section CodecFacts.

Variable Lookup : PyObj -> option Registration.

Lemma FromPicklable_item_encoded (tree : list Node) (node : Node) :
  valid_node Lookup node ->
  FromPicklable_item Lookup tree (encode_node node) = Ok (tree ++ [node]).
Proof.
  destruct node as [k n d c l m]. unfold valid_node, encode_node. simpl.
  intros (Hn & Hl & Hm & Hkind).
  destruct (PyTreeKind.of_tag k) as [t|] eqn:Hk; [|contradiction].
  pose proof (of_tag_Some _ _ Hk) as ->.
  unfold FromPicklable_item, cast_ssize_t. simpl.
  destruct t; simpl in *;
    try (destruct Hkind as [-> ->]; simpl; rewrite Hn, Hl, Hm; reflexivity).
  - destruct Hkind as [(id & name & fields & ->) ->]. simpl. rewrite Hn, Hl, Hm. reflexivity.
  - destruct Hkind as [(keys & ->) ->]. simpl. rewrite Hn, Hl, Hm. reflexivity.
  - destruct Hkind as [(data & ->) (r & -> & Hnone & Hfind)]. simpl.
    rewrite Hn, Hnone, Hfind, Hl, Hm. reflexivity.
Qed.

Lemma FromPicklable_loop_encoded (nodes tree : list Node) :
  Forall (valid_node Lookup) nodes ->
  for_each (FromPicklable_item Lookup) (map encode_node nodes) tree = Ok (tree ++ nodes).
Proof.
  intros H; revert tree; induction H as [|node nodes Hnode _ IH]; intros tree; simpl.
  - rewrite app_nil_r. reflexivity.
  - rewrite (FromPicklable_item_encoded tree node Hnode). simpl.
    rewrite IH, <- app_assoc. reflexivity.
Qed.

(** One record is decoded on its own: the traversal built so far only
    receives the node. *)
Lemma FromPicklable_item_appends (tree : list Node) (item : PyObj) :
  FromPicklable_item Lookup tree item =
    (nodes <- FromPicklable_item Lookup [] item ;; Ok (tree ++ nodes)).
Proof.
  unfold FromPicklable_item.
  destruct (cast_tuple item) as [[|t0 [|t1 [|t2 [|t3 [|t4 [|t5 [|]]]]]]]|]; simpl;
    try reflexivity.
  repeat match goal with
         | |- context [bind ?m _] =>
             match m with
             | bind _ _ => fail 1
             | _ => destruct m; simpl; try reflexivity
             end
         end.
Qed.

Lemma FromPicklable_item_single (item : PyObj) (nodes : list Node) :
  FromPicklable_item Lookup [] item = Ok nodes -> exists node, nodes = [node].
Proof.
  unfold FromPicklable_item. intros H. exc_inv H. injection H as <-. simpl. eauto.
Qed.

Lemma FromPicklable_loop_Forall2 (items : list PyObj) (tree tree' : list Node) :
  for_each (FromPicklable_item Lookup) items tree = Ok tree' <->
  exists nodes,
    Forall2 (fun item node => FromPicklable_item Lookup [] item = Ok [node]) items nodes /\
    tree' = tree ++ nodes.
Proof.
  revert tree; induction items as [|item items IH]; intros tree; simpl.
  - split.
    + intros [= <-]. exists []. rewrite app_nil_r. auto.
    + intros (nodes & H & ->). inversion H. rewrite app_nil_r. reflexivity.
  - rewrite FromPicklable_item_appends. split.
    + intros H. apply bind_Ok in H as (tree1 & H1 & H2).
      apply bind_Ok in H1 as (single & Hs & [= <-]).
      destruct (FromPicklable_item_single _ _ Hs) as (node & ->).
      apply IH in H2 as (nodes & Hnodes & ->).
      exists (node :: nodes). split; [constructor; assumption|].
      rewrite <- app_assoc. reflexivity.
    + intros (nodes & H & ->). inversion H as [|? node ? rest Hnode Hrest]; subst.
      rewrite Hnode. simpl. apply IH. exists rest. split; [exact Hrest|].
      rewrite <- app_assoc. reflexivity.
Qed.

End CodecFacts.

(** C3: when every node of a traversal is as the data model has it, and
    the registry finds the registration of each custom node under its
    type, decoding the encoded traversal succeeds and gives a traversal
    equal to the first under [operator==] (indeed the same nodes). *)
Theorem FromPicklable_ToPicklable
    (Lookup : PyObj -> option Registration) (self : PyTreeSpec) :
  Forall (valid_node Lookup) (traversal self) ->
  exists decoded,
    FromPicklableImpl Lookup (ToPicklable self) = Ok decoded /\
    PyTreeSpec_eq decoded self = true /\
    traversal decoded = traversal self.
Proof.
  intros Hvalid. exists self. split; [|split; [apply PyTreeSpec_eq_refl | reflexivity]].
  unfold FromPicklableImpl, ToPicklable. simpl.
  rewrite (FromPicklable_loop_encoded Lookup _ [] Hvalid). simpl.
  destruct self. reflexivity.
Qed.

Lemma FromPicklable_ToPicklable_witness :
  exists decoded,
    FromPicklableImpl box_registry (ToPicklable boxed_leaf) = Ok decoded /\
    PyTreeSpec_eq decoded boxed_leaf = true /\
    traversal decoded = traversal boxed_leaf.
Proof.
  apply (FromPicklable_ToPicklable box_registry boxed_leaf).
  repeat constructor; simpl; eauto.
Defined.

(** C2, as the specification states it, fails: the pickle of a tuple
    node of arity 2 with nothing before it is decoded without error,
    although the traversal underflows at its first node, as the
    reconstruction of it finds out. *)
Lemma FromPicklable_accepts_underflow :
  FromPicklableImpl empty_registry childless_pair_pickle = Ok (mkSpec [tuple_node 2 0 1]) /\
  postorder_depth [tuple_node 2 0 1] 0 = None /\
  well_formed (mkSpec [tuple_node 2 0 1]) = false /\
  UnflattenImpl no_call (mkSpec [tuple_node 2 0 1]) [] = Throw TooFewElements.
Proof. repeat split; reflexivity. Qed.

Lemma static_cast_range (z : Z) :
  - 2 ^ 31 <= static_cast_PyTreeKind z < 2 ^ 31.
Proof.
  unfold static_cast_PyTreeKind.
  pose proof (Z.mod_pos_bound (z + 2 ^ 31) (2 ^ 32) ltac:(lia)). lia.
Qed.

Lemma static_cast_small (z : Z) :
  - 2 ^ 31 <= z < 2 ^ 31 -> static_cast_PyTreeKind z = z.
Proof.
  intros H. unfold static_cast_PyTreeKind. rewrite Z.mod_small by lia. lia.
Qed.

Lemma static_cast_idem (z : Z) :
  static_cast_PyTreeKind (static_cast_PyTreeKind z) = static_cast_PyTreeKind z.
Proof. apply static_cast_small, static_cast_range. Qed.

Lemma static_cast_fits (z : Z) : fits_ssize_t (static_cast_PyTreeKind z) = true.
Proof.
  pose proof (static_cast_range z). unfold fits_ssize_t.
  apply andb_true_iff. split; [apply Z.leb_le | apply Z.ltb_lt]; lia.
Qed.

Lemma static_cast_enumerator (k : PyTreeKind.t) :
  static_cast_PyTreeKind (PyTreeKind.to_tag k) = PyTreeKind.to_tag k.
Proof. destruct k; reflexivity. Qed.

Lemma is_none_true (t : PyObj) : is_none t = true <-> t = PyNone.
Proof. destruct t; simpl; split; congruence. Qed.

Lemma cast_ssize_t_PyInt (o : PyObj) (z : Z) :
  cast_ssize_t o = Ok z <-> o = PyInt z /\ fits_ssize_t z = true.
Proof.
  unfold cast_ssize_t. split.
  - destruct o; try discriminate.
    destruct (fits_ssize_t z0) eqn:E; [intros [= ->]; auto | discriminate].
  - intros [-> ->]. reflexivity.
Qed.

(** C2, amended: deserialization checks each record on its own and
    nothing about the sequence of records.  A pickle is accepted exactly
    when each of its records is; a record is accepted exactly when it
    has six fields, its kind, arity and counts are integers that fit
    [ssize_t] (the kind stored narrowed to the enumeration, the others as
    they are), its aux field is a type object on a namedtuple node, can
    be turned into a list on a dict node, is anything on a custom node
    and is [None] on any other, and its registration field is resolved
    by the registry on a custom node and is [None] on any other.  Neither
    non-emptiness nor post-order consistency is looked at. *)
Theorem FromPicklable_checks_records_only
    (Lookup : PyObj -> option Registration) (items : list PyObj) :
  (forall decoded,
      FromPicklableImpl Lookup (PyList items) = Ok decoded <->
      Forall2 (fun item node => FromPicklable_item Lookup [] item = Ok [node])
              items (traversal decoded)) /\
  (forall item node,
      FromPicklable_item Lookup [] item = Ok [node] <->
      exists tag t2 t3,
        cast_tuple item =
          Ok [PyInt tag; PyInt (arity node); t2; t3;
              PyInt (num_leaves node); PyInt (num_nodes node)] /\
        fits_ssize_t tag = true /\ fits_ssize_t (arity node) = true /\
        fits_ssize_t (num_leaves node) = true /\ fits_ssize_t (num_nodes node) = true /\
        kind node = static_cast_PyTreeKind tag /\
        match PyTreeKind.of_tag (kind node) with
        | Some PyTreeKind.NamedTuple =>
            cast_type t2 = Ok t2 /\ node_data node = Some t2 /\
            t3 = PyNone /\ custom node = None
        | Some PyTreeKind.Dict =>
            (exists keys, py_iter t2 = Ok keys /\ node_data node = Some (PyList keys)) /\
            t3 = PyNone /\ custom node = None
        | Some PyTreeKind.Custom =>
            node_data node = Some t2 /\ t3 <> PyNone /\
            custom node <> None /\ custom node = Lookup t3
        | _ =>
            t2 = PyNone /\ node_data node = None /\ t3 = PyNone /\ custom node = None
        end).
Proof.
  split.
  - intros [decoded]. unfold FromPicklableImpl. simpl. split.
    + intros H. apply bind_Ok in H as (tree & Hloop & [= <-]).
      apply FromPicklable_loop_Forall2 in Hloop as (nodes & Hnodes & ->). exact Hnodes.
    + intros H.
      rewrite (proj2 (FromPicklable_loop_Forall2 Lookup items [] decoded)); [reflexivity|].
      exists decoded. auto.
  - intros item node. split.
    + intros H. unfold FromPicklable_item in H.
      destruct (cast_tuple item) as [[|t0 [|t1 [|t2 [|t3 [|t4 [|t5 [|]]]]]]]|]; simpl in H;
        try discriminate.
      apply bind_Ok in H as (k & Hk & H). apply bind_Ok in H as (n & Hn & H).
      apply bind_Ok in H as (d & Hd & H). apply bind_Ok in H as (c & Hc & H).
      apply bind_Ok in H as (l & Hl & H). apply bind_Ok in H as (m & Hm & H).
      injection H as <-. simpl.
      apply cast_ssize_t_PyInt in Hk as [-> Hk], Hn as [-> Hn], Hl as [-> Hl], Hm as [-> Hm].
      exists k, t2, t3. repeat (split; [first [reflexivity | assumption]|]).
      destruct (PyTreeKind.of_tag (static_cast_PyTreeKind k)) as [[]|];
        exc_inv Hd; exc_inv Hc;
        try (injection Hd as <-); try (injection Hc as <-);
        repeat match goal with
               | E : negb (is_none _) = false |- _ =>
                   apply negb_false_iff, is_none_true in E; subst
               end;
        auto.
      * unfold cast_type in *. destruct t2; try discriminate. injection Hx as <-. auto.
      * unfold cast_list in Hx. apply bind_Ok in Hx as (keys & Hkeys & [= <-]). eauto 6.
      * destruct (is_none t3) eqn:E1; [discriminate|]. repeat split; try congruence.
        intros ->. discriminate.
    + destruct node as [k n d c l m]. simpl.
      intros (tag & t2 & t3 & Htuple & Ht & Hn & Hl & Hm & -> & Hkind).
      unfold FromPicklable_item, cast_ssize_t. rewrite Htuple. simpl.
      rewrite Ht, Hn. simpl.
      destruct (PyTreeKind.of_tag (static_cast_PyTreeKind tag)) as [[]|]; simpl in Hkind |- *;
        try (destruct Hkind as (-> & -> & -> & ->); simpl; rewrite Hl, Hm; reflexivity).
      * destruct Hkind as ((keys & Hkeys & ->) & -> & ->). unfold cast_list.
        rewrite Hkeys. simpl. rewrite Hl, Hm. reflexivity.
      * destruct Hkind as (-> & Hnone & Hset & Hfind).
        assert (is_none t3 = false) as ->
          by (destruct (is_none t3) eqn:E; [apply is_none_true in E; contradiction | reflexivity]).
        rewrite <- Hfind. destruct c as [r|]; [|contradiction]. simpl.
        rewrite Hl, Hm. reflexivity.
Qed.

Lemma FromPicklable_checks_records_only_witness :
  Forall2 (fun item node => FromPicklable_item empty_registry [] item = Ok [node])
    [PyTuple [PyInt 2; PyInt 2; PyNone; PyNone; PyInt 0; PyInt 1]] [tuple_node 2 0 1].
Proof.
  exact (proj1 (proj1 (FromPicklable_checks_records_only empty_registry
                         [PyTuple [PyInt 2; PyInt 2; PyNone; PyNone; PyInt 0; PyInt 1]])
                  (mkSpec [tuple_node 2 0 1])) eq_refl).
Defined.

(* ------------------------------------------------------------------ *)
(** ** Kind tags and arities out of range *)




(* ------------------------------------------------------------------ *)
(** ** Rendering *)

Lemma string_app_assoc (a b c : string) : ((a ++ b) ++ c = a ++ (b ++ c))%string.
Proof. induction a as [|x a IH]; simpl; [reflexivity | rewrite IH; reflexivity]. Qed.

(** C7, as the specification states it, fails on the text: the rendering
    of the dict binding ['a'] to a list of two leaves and ['b'] to [None]
    is wrapped in [PyTreeSpec(...)] and writes [None]. *)
Lemma ToString_writes_PyTreeSpec_and_None :
  ToString quoted quoted dict_of_list_and_none
    = Ok "PyTreeSpec({'a': [*, *], 'b': None})"%string /\
  ToString quoted quoted dict_of_list_and_none
    <> Ok "Spec({'a': [*, *], 'b': none})"%string.
Proof. split; [reflexivity | discriminate]. Qed.

(** C7, amended: a tuple node of arity 1 is rendered as its child
    followed by a comma, between parentheses (a tuple node of arity 2 as
    its children joined by ", ", with no trailing comma); every rendering
    is wrapped in [PyTreeSpec(...)]; and the dict binding ['a'] to a list
    of two leaves and ['b'] to [None] is rendered exactly as
    [PyTreeSpec({'a': [*, *], 'b': None})]. *)
Theorem ToString_forms (py_repr py_str : PyObj -> string) :
  (forall agenda child node,
      is_kind PyTreeKind.Tuple node = true -> arity node = 1 ->
      ToString_node py_repr py_str (agenda ++ [child]) node
        = Ok (agenda ++ [("(" ++ child ++ ",)")%string])) /\
  (forall agenda child1 child2 node,
      is_kind PyTreeKind.Tuple node = true -> arity node = 2 ->
      ToString_node py_repr py_str (agenda ++ [child1; child2]) node
        = Ok (agenda ++ [("(" ++ child1 ++ ", " ++ child2 ++ ")")%string])) /\
  (forall self text,
      ToString py_repr py_str self = Ok text ->
      exists root, text = ("PyTreeSpec(" ++ root ++ ")")%string) /\
  (py_repr (PyStr "a") = "'a'"%string -> py_repr (PyStr "b") = "'b'"%string ->
   ToString py_repr py_str dict_of_list_and_none
     = Ok "PyTreeSpec({'a': [*, *], 'b': None})"%string).
Proof.
  assert (Htop : forall (agenda top : list string) n,
             n = size top ->
             skipn (Z.to_nat (size (agenda ++ top) - n)) (agenda ++ top) = top /\
             firstn (Z.to_nat (size (agenda ++ top) - n)) (agenda ++ top) = agenda).
  { intros agenda top n ->. rewrite size_app.
    replace (Z.to_nat (size agenda + size top - size top)) with (length agenda + 0)%nat
      by (unfold size; lia).
    rewrite skipn_app, firstn_app, skipn_all2, firstn_all2 by lia.
    replace (length agenda + 0 - length agenda)%nat with 0%nat by lia.
    simpl. rewrite app_nil_r. auto. }
  split; [|split; [|split]].
  - intros agenda child node Hk%Z.eqb_eq Ha. unfold ToString_node. rewrite Hk, Ha.
    destruct (Htop agenda [child] 1 eq_refl) as [-> ->].
    destruct (Z.ltb_spec (size (agenda ++ [child])) 1);
      [rewrite size_app in *; pose proof (size_nonneg agenda); unfold size in *; simpl in *; lia|].
    simpl. rewrite string_app_assoc. reflexivity.
  - intros agenda child1 child2 node Hk%Z.eqb_eq Ha. unfold ToString_node. rewrite Hk, Ha.
    destruct (Htop agenda [child1; child2] 2 eq_refl) as [-> ->].
    destruct (Z.ltb_spec (size (agenda ++ [child1; child2])) 2);
      [rewrite size_app in *; pose proof (size_nonneg agenda); unfold size in *; simpl in *; lia|].
    simpl. rewrite !string_app_assoc. reflexivity.
  - intros self text H. unfold ToString in H. apply bind_Ok in H as (agenda & _ & H).
    destruct (negb (size agenda =? 1)); [discriminate|]. injection H as <-.
    eexists. reflexivity.
  - intros Ha Hb. unfold ToString, ToString_loop. cbv. rewrite Ha, Hb. reflexivity.
Qed.

Lemma ToString_forms_witness :
  ToString quoted quoted dict_of_list_and_none
    = Ok "PyTreeSpec({'a': [*, *], 'b': None})"%string /\
  ToString_node quoted quoted ["*"%string] (tuple_node 1 1 2) = Ok ["(*,)"%string].
Proof.
  split.
  - exact (proj2 (proj2 (proj2 (ToString_forms quoted quoted))) eq_refl eq_refl).
  - exact (proj1 (ToString_forms quoted quoted) [] "*"%string (tuple_node 1 1 2) eq_refl eq_refl).
Defined.

(* ------------------------------------------------------------------ *)
(** ** [operator==] as an equivalence *)

Lemma Forall_forallb {A} (f : A -> bool) (P : A -> Prop) (l : list A) :
  Forall (fun x => f x = true -> P x) l -> forallb f l = true -> Forall P l.
Proof.
  induction 1 as [|x l Hx _ IH]; simpl; [constructor|].
  intros [H1 H2]%andb_prop. constructor; auto.
Qed.

Lemma py_eqb_sym_dict_free (a : PyObj) :
  dict_free a = true -> forall b, py_eqb a b = py_eqb b a.
Proof.
  induction a using PyObj_nested_ind; simpl; intros Hf b; try discriminate;
    destruct b; simpl; try reflexivity;
    try apply Z.eqb_sym; try apply String.eqb_sym; try apply Nat.eqb_sym.
  - apply list_eqb_sym. exact (Forall_forallb _ _ _ H Hf).
  - apply list_eqb_sym. exact (Forall_forallb _ _ _ H Hf).
Qed.

Lemma py_eqb_trans_dict_free (a : PyObj) :
  dict_free a = true ->
  forall b c, py_eqb a b = true -> py_eqb b c = true -> py_eqb a c = true.
Proof.
  induction a using PyObj_nested_ind; simpl; intros Hf b c; try discriminate;
    destruct b; simpl; try discriminate; destruct c; simpl; try discriminate; try reflexivity.
  - intros ->%Z.eqb_eq. auto.
  - intros ->%String.eqb_eq. auto.
  - apply list_eqb_trans. exact (Forall_forallb _ _ _ H Hf).
  - apply list_eqb_trans. exact (Forall_forallb _ _ _ H Hf).
  - intros ->%Nat.eqb_eq. auto.
  - intros ->%Nat.eqb_eq. auto.
Qed.

Lemma same_registration_sym (a b : option Registration) :
  same_registration a b = same_registration b a.
Proof. destruct a, b; simpl; try reflexivity. apply Nat.eqb_sym. Qed.

Lemma same_registration_trans (a b c : option Registration) :
  same_registration a b = true -> same_registration b c = true ->
  same_registration a c = true.
Proof.
  destruct a, b, c; simpl; try discriminate; auto.
  intros ->%Nat.eqb_eq. auto.
Qed.

Lemma nodes_agree_sym (x y : Node) :
  aux_dict_free x = true -> (nodes_agree x y <-> nodes_agree y x).
Proof.
  unfold nodes_agree, aux_dict_free. intros Hf.
  rewrite (same_registration_sym (custom y) (custom x)).
  split; intros (Hk & Ha & Hp & Hd & Hc); repeat split; try tauto; try congruence.
  - intros dy dx Hy Hx. rewrite Hx in Hf.
    rewrite <- (py_eqb_sym_dict_free dx Hf dy). auto.
  - intros dx dy Hx Hy. rewrite Hx in Hf.
    rewrite (py_eqb_sym_dict_free dx Hf dy). auto.
Qed.

Lemma nodes_agree_trans (x y z : Node) :
  aux_dict_free x = true -> nodes_agree x y -> nodes_agree y z -> nodes_agree x z.
Proof.
  unfold nodes_agree, aux_dict_free.
  intros Hf (Hk & Ha & Hp & Hd & Hc) (Hk' & Ha' & Hp' & Hd' & Hc').
  repeat split; try congruence; try tauto.
  - intros dx dz Hx Hz. rewrite Hx in Hf.
    destruct (node_data y) as [dy|] eqn:Hy.
    + exact (py_eqb_trans_dict_free dx Hf dy dz (Hd dx dy Hx eq_refl) (Hd' dy dz eq_refl Hz)).
    + destruct Hp as [_ Hp]. rewrite Hp in Hx by reflexivity. discriminate.
  - exact (same_registration_trans _ _ _ Hc Hc').
Qed.

Lemma Forall2_nodes_agree_sym (a b : list Node) :
  forallb aux_dict_free a = true ->
  (Forall2 nodes_agree a b <-> Forall2 nodes_agree b a).
Proof.
  revert b; induction a as [|x a IH]; intros [|y b]; simpl.
  - intros _. split; constructor.
  - intros _. split; intros H; inversion H.
  - intros _. split; intros H; inversion H.
  - intros [Hx Ha]%andb_prop. split; intros H; inversion H; subst; constructor;
      try (apply (nodes_agree_sym x y Hx); assumption);
      apply (IH b Ha); assumption.
Qed.

Lemma Forall2_nodes_agree_trans (a b c : list Node) :
  forallb aux_dict_free a = true ->
  Forall2 nodes_agree a b -> Forall2 nodes_agree b c -> Forall2 nodes_agree a c.
Proof.
  intros Hf H; revert c Hf; induction H as [|x y a b Hxy _ IH]; intros c Hf H'.
  - inversion H'. constructor.
  - inversion H' as [|? z ? c' Hyz Hrest]; subst. simpl in Hf.
    apply andb_prop in Hf as [Hx Ha]. constructor.
    + exact (nodes_agree_trans x y z Hx Hxy Hyz).
    + exact (IH c' Ha Hrest).
Qed.

(** X1: [operator==] is reflexive, on every traversal, whatever its
    nodes hold; so [operator!=] of a traversal with itself is false. *)
Theorem PyTreeSpec_eq_reflexive (self : PyTreeSpec) :
  PyTreeSpec_eq self self = true /\ PyTreeSpec_ne self self = false.
Proof.
  unfold PyTreeSpec_ne. rewrite PyTreeSpec_eq_refl. auto.
Qed.

(** X2: [operator==] and [operator!=] do not depend on the side a
    traversal is on, when the aux data of one of the two traversals has
    no dict inside. *)
Theorem PyTreeSpec_eq_symmetric (self other : PyTreeSpec) :
  forallb aux_dict_free (traversal self) = true ->
  PyTreeSpec_eq self other = PyTreeSpec_eq other self /\
  PyTreeSpec_ne self other = PyTreeSpec_ne other self.
Proof.
  intros Hf.
  assert (H : PyTreeSpec_eq self other = PyTreeSpec_eq other self).
  { destruct (PyTreeSpec_eq self other) eqn:E1, (PyTreeSpec_eq other self) eqn:E2;
      try reflexivity.
    - apply PyTreeSpec_eq_iff in E1 as [Hlen H].
      assert (PyTreeSpec_eq other self = true) as E; [|congruence].
      apply PyTreeSpec_eq_iff. split; [congruence|].
      apply (Forall2_nodes_agree_sym _ _ Hf). exact H.
    - apply PyTreeSpec_eq_iff in E2 as [Hlen H].
      assert (PyTreeSpec_eq self other = true) as E; [|congruence].
      apply PyTreeSpec_eq_iff. split; [congruence|].
      apply (Forall2_nodes_agree_sym _ _ Hf). exact H. }
  unfold PyTreeSpec_ne. rewrite H. auto.
Qed.

Lemma PyTreeSpec_eq_symmetric_witness :
  PyTreeSpec_eq dict_of_list_and_none triple = PyTreeSpec_eq triple dict_of_list_and_none /\
  PyTreeSpec_ne dict_of_list_and_none triple = PyTreeSpec_ne triple dict_of_list_and_none.
Proof. exact (PyTreeSpec_eq_symmetric dict_of_list_and_none triple eq_refl). Defined.

(** X3: [operator==] is transitive, when the aux data of the first
    traversal has no dict inside. *)
Theorem PyTreeSpec_eq_transitive (a b c : PyTreeSpec) :
  forallb aux_dict_free (traversal a) = true ->
  PyTreeSpec_eq a b = true -> PyTreeSpec_eq b c = true -> PyTreeSpec_eq a c = true.
Proof.
  intros Hf [Hlen H]%PyTreeSpec_eq_iff [Hlen' H']%PyTreeSpec_eq_iff.
  apply PyTreeSpec_eq_iff. split; [congruence|].
  exact (Forall2_nodes_agree_trans _ _ _ Hf H H').
Qed.

Lemma PyTreeSpec_eq_transitive_witness :
  PyTreeSpec_eq triple (mkSpec [leaf_node; leaf_node; leaf_node; tuple_node 3 0 0]) = true.
Proof.
  exact (PyTreeSpec_eq_transitive triple
           (mkSpec [leaf_node; leaf_node; leaf_node; tuple_node 3 7 9])
           (mkSpec [leaf_node; leaf_node; leaf_node; tuple_node 3 0 0])
           eq_refl eq_refl eq_refl).
Defined.

(* ------------------------------------------------------------------ *)
(** ** When reconstruction succeeds *)

Lemma filter_leaf_like_app (l1 l2 : list Node) :
  length (filter leaf_like (l1 ++ l2))
  = (length (filter leaf_like l1) + length (filter leaf_like l2))%nat.
Proof. rewrite filter_app, length_app. reflexivity. Qed.

Section ReconstructionSuccess.

Variable py_call : PyObj -> list PyObj -> PyResult.

(** A walk that completes follows the stack discipline of the data
    model. *)
Lemma Unflatten_loop_depth (self : PyTreeSpec) (nodes : list Node) (w w' : Walk) :
  Unflatten_loop py_call self nodes w = Ok w' ->
  postorder_depth nodes (size (agenda w)) = Some (size (agenda w')).
Proof.
  unfold Unflatten_loop. revert w; induction nodes as [|node nodes IH]; intros w; simpl.
  - intros [= <-]. reflexivity.
  - intros H. apply bind_Ok in H as (w1 & H1 & H2). apply IH in H2.
    apply Unflatten_node_Ok in H1
      as (Hge & [(-> & leaf & _ & Hag & _) | (-> & Hpos & out & _ & Hag & _)]).
    + rewrite Hag, size_app in H2. exact H2.
    + destruct (Z.ltb_spec (size (agenda w)) (arity node)); [lia|].
      rewrite Hag, size_app in H2.
      replace (size (firstn (Z.to_nat (size (agenda w) - arity node)) (agenda w)))
        with (size (agenda w) - arity node) in H2
        by (unfold size in *; rewrite length_firstn; lia).
      exact H2.
Qed.

(** A node that is not served from the leaves, with the agenda deep
    enough: the top [arity] items go to [MakeNode], its result replaces
    them. *)
Lemma Unflatten_node_container (self : PyTreeSpec) (ag l : list PyObj) (c : Z) (node : Node) :
  leaf_like node = false -> known_kind node = true ->
  0 <= arity node <= size ag ->
  Unflatten_node py_call self (mkWalk ag l c) node =
    (out <- MakeNode py_call node (skipn (Z.to_nat (size ag - arity node)) ag) ;;
     Ok (mkWalk (firstn (Z.to_nat (size ag - arity node)) ag ++ [out]) l c)).
Proof.
  unfold Unflatten_node, leaf_like, known_kind. simpl. intros Hl Hk [Hpos Hge].
  destruct (Z.ltb_spec (size ag) (arity node)); [lia|].
  assert (Hspan : (if arity node >? 0
                   then skipn (Z.to_nat (size ag - arity node)) ag else [])
                  = skipn (Z.to_nat (size ag - arity node)) ag).
  { destruct (Z.gtb_spec (arity node) 0); [reflexivity|].
    replace (Z.to_nat (size ag - arity node)) with (length ag) by (unfold size; lia).
    symmetry. apply skipn_all. }
  rewrite Hspan.
  destruct (PyTreeKind.of_tag (kind node)) as [[]|]; try discriminate; reflexivity.
Qed.

Lemma MakeNode_plain (node : Node) (children : list PyObj) :
  plain_node node = true -> leaf_like node = false -> size children = arity node ->
  exists out, MakeNode py_call node children = Ok out.
Proof.
  unfold plain_node, leaf_like, MakeNode. intros Hp Hl Hsize.
  rewrite Hsize, Z.eqb_refl. simpl.
  destruct (PyTreeKind.of_tag (kind node)) as [[]|]; try discriminate; eauto.
  destruct (node_data node) as [[]|]; try discriminate.
  apply andb_prop in Hp as [Hlen%Z.eqb_eq Hhash].
  destruct (MakeNode_dict_loop_Ok children items [] ltac:(unfold size in *; lia) Hhash eq_refl)
    as (dict & -> & _). simpl. eauto.
Qed.

Lemma plain_node_known (node : Node) :
  plain_node node = true -> known_kind node = true /\ 0 <= arity node.
Proof.
  unfold plain_node, known_kind.
  destruct (PyTreeKind.of_tag (kind node)) as [[]|]; try discriminate;
    intros H; split; try reflexivity; try lia.
  destruct (node_data node) as [[]|]; try discriminate.
  apply andb_prop in H as [Hlen%Z.eqb_eq _]. rewrite <- Hlen. apply size_nonneg.
Qed.

Lemma Unflatten_loop_total (self : PyTreeSpec) (nodes : list Node) :
  forallb plain_node nodes = true ->
  forall (ag l : list PyObj) (c d : Z),
    postorder_depth nodes (size ag) = Some d ->
    length l = length (filter leaf_like nodes) ->
    exists w, Unflatten_loop py_call self nodes (mkWalk ag l c) = Ok w /\ it w = [].
Proof.
  unfold Unflatten_loop. induction nodes as [|node nodes IH]; simpl.
  - intros _ ag [|x l] c d _ Hlen; [|discriminate]. eexists. split; reflexivity.
  - intros [Hp Hps]%andb_prop ag l c d Hdepth Hlen.
    destruct (plain_node_known node Hp) as [Hk Hpos].
    destruct (leaf_like node) eqn:Hl.
    + assert (Ha : arity node = 0).
      { unfold plain_node, leaf_like in *.
        destruct (PyTreeKind.of_tag (kind node)) as [[]|]; try discriminate;
          apply Z.eqb_eq; exact Hp. }
      destruct l as [|x l]; [discriminate|]. simpl in Hlen.
      rewrite Unflatten_node_leaf_like by (simpl; auto; rewrite Ha; apply size_nonneg).
      simpl. apply (IH Hps (ag ++ [x]) l (c + 1) d); [|lia].
      rewrite size_app. exact Hdepth.
    + destruct (Z.ltb_spec (size ag) (arity node)); [discriminate|].
      rewrite Unflatten_node_container by (auto; lia).
      destruct (MakeNode_plain node (skipn (Z.to_nat (size ag - arity node)) ag) Hp Hl)
        as (out & ->).
      { unfold size in *. rewrite length_skipn. lia. }
      simpl. apply (IH Hps _ l c d); [|exact Hlen].
      rewrite size_app.
      replace (size (firstn (Z.to_nat (size ag - arity node)) ag))
        with (size ag - arity node)
        by (unfold size in *; rewrite length_firstn; lia).
      exact Hdepth.
Qed.

End ReconstructionSuccess.

(** X4: when [UnflattenImpl] returns a value, the traversal is not empty
    and is post-order consistent: counting one item pushed by each leaf
    and [None], and [arity] items replaced by one by each other node,
    no node finds fewer items than its arity and one item is left. *)
Theorem Unflatten_success_postorder
    (py_call : PyObj -> list PyObj -> PyResult) (self : PyTreeSpec)
    (leaves : list PyObj) (out : PyObj) :
  UnflattenImpl py_call self leaves = Ok out ->
  traversal self <> [] /\ postorder_depth (traversal self) 0 = Some 1.
Proof.
  unfold UnflattenImpl. intros H. apply bind_Ok in H as (w & Hloop & Hend).
  destruct (it w); [|discriminate].
  destruct (Z.eqb_spec (size (agenda w)) 1) as [Hone|]; [|discriminate].
  apply Unflatten_loop_depth in Hloop. simpl in Hloop. rewrite Hone in Hloop.
  split; [|exact Hloop].
  intros Hnil. rewrite Hnil in Hloop. discriminate.
Qed.

Lemma Unflatten_success_postorder_witness :
  traversal dict_of_list_and_none <> [] /\
  postorder_depth (traversal dict_of_list_and_none) 0 = Some 1.
Proof.
  exact (Unflatten_success_postorder no_call dict_of_list_and_none
           [PyInt 1; PyInt 2; PyInt 3]
           (PyDict [(PyStr "a", PyList [PyInt 1; PyInt 2]); (PyStr "b", PyInt 3)]) eq_refl).
Defined.

(** X5: on a traversal of leaves, [None], tuples, lists and dicts (with
    well-formed key lists), [UnflattenImpl] returns a value exactly when
    the traversal is post-order consistent and the leaf sequence has one
    leaf for each [Leaf] and each [None] node. *)
Theorem Unflatten_plain_succeeds_iff
    (py_call : PyObj -> list PyObj -> PyResult) (self : PyTreeSpec) (leaves : list PyObj) :
  forallb plain_node (traversal self) = true ->
  ((exists out, UnflattenImpl py_call self leaves = Ok out) <->
   postorder_depth (traversal self) 0 = Some 1 /\
   length leaves = length (filter leaf_like (traversal self))).
Proof.
  intros Hplain. split.
  - intros (out & H). unfold UnflattenImpl in H. apply bind_Ok in H as (w & Hloop & Hend).
    destruct (it w) eqn:Hit; [|discriminate].
    destruct (Z.eqb_spec (size (agenda w)) 1) as [Hone|]; [|discriminate].
    split.
    + apply Unflatten_loop_depth in Hloop. simpl in Hloop. rewrite Hone in Hloop. exact Hloop.
    + apply Unflatten_loop_consumes in Hloop as (consumed & Hc & Hlen & _).
      simpl in Hc. rewrite Hit, app_nil_r in Hc. subst. exact Hlen.
  - intros [Hdepth Hlen].
    destruct (Unflatten_loop_total py_call self _ Hplain [] leaves 0 1 Hdepth Hlen)
      as (w & Hloop & Hit).
    pose proof (Unflatten_loop_depth _ _ _ _ _ Hloop) as Hd.
    change (postorder_depth (traversal self) 0 = Some (size (agenda w))) in Hd.
    rewrite Hdepth in Hd. injection Hd as Hd.
    unfold UnflattenImpl. rewrite Hloop. simpl. rewrite Hit, <- Hd. simpl. eauto.
Qed.

Lemma Unflatten_plain_succeeds_iff_witness :
  exists out, UnflattenImpl no_call nested_pairs [PyInt 1; PyInt 2; PyInt 3; PyInt 4] = Ok out.
Proof.
  apply (proj2 (Unflatten_plain_succeeds_iff no_call nested_pairs
                  [PyInt 1; PyInt 2; PyInt 3; PyInt 4] eq_refl)).
  split; reflexivity.
Defined.

(** X6: the numbers in the leaf errors.  "Too few leaves" reports as
    "got" the length of the leaf sequence, which is then shorter than
    the number of [Leaf] and [None] nodes; "Too many leaves" is thrown
    only on a sequence longer than that number; both report as
    "expected" the stored [num_leaves] of the last node. *)
Theorem Unflatten_leaf_error_counts
    (py_call : PyObj -> list PyObj -> PyResult) (self : PyTreeSpec) (leaves : list PyObj) :
  (forall expected got,
      UnflattenImpl py_call self leaves = Throw (TooFewLeaves expected got) ->
      expected = PyTreeSpec_num_leaves self /\ got = size leaves /\
      (length leaves < length (filter leaf_like (traversal self)))%nat) /\
  (forall expected,
      UnflattenImpl py_call self leaves = Throw (TooManyLeaves expected) ->
      expected = PyTreeSpec_num_leaves self /\
      (length (filter leaf_like (traversal self)) < length leaves)%nat).
Proof.
  split.
  - intros expected got. unfold UnflattenImpl.
    destruct (Unflatten_loop py_call self (traversal self) (mkWalk [] leaves 0))
      as [w|e] eqn:Hloop; simpl.
    + destruct (it w); [|discriminate].
      destruct (negb (size (agenda w) =? 1)); discriminate.
    + intros [= ->]. unfold Unflatten_loop in Hloop.
      apply for_each_Throw in Hloop as (pre & node & post & w1 & Hsplit & Hpre & Hnode).
      apply Unflatten_node_Throw in Hnode
        as [(_ & [=]) | [(Hge & Hk & Hit & [= -> ->]) | (_ & _ & [])]].
      apply Unflatten_loop_consumes in Hpre as (consumed & Hc & Hlen & Hcount).
      simpl in Hc, Hcount. rewrite Hit, app_nil_r in Hc. subst consumed.
      split; [reflexivity|]. split; [unfold size; lia|].
      rewrite Hsplit, filter_leaf_like_app. simpl. rewrite Hk. simpl. lia.
  - intros expected. unfold UnflattenImpl.
    destruct (Unflatten_loop py_call self (traversal self) (mkWalk [] leaves 0))
      as [w|e] eqn:Hloop; simpl.
    + destruct (it w) eqn:Hit.
      * destruct (negb (size (agenda w) =? 1)); discriminate.
      * intros [= <-]. split; [reflexivity|].
        apply Unflatten_loop_consumes in Hloop as (consumed & Hc & Hlen & _).
        simpl in Hc. rewrite Hit in Hc. subst leaves.
        rewrite length_app. simpl. lia.
    + intros [= ->]. apply Unflatten_loop_Throw in Hloop. contradiction.
Qed.

Lemma Unflatten_leaf_error_counts_witness :
  3 = PyTreeSpec_num_leaves triple /\ 2 = size [PyInt 1; PyInt 2] /\
  (length [PyInt 1; PyInt 2] < length (filter leaf_like (traversal triple)))%nat.
Proof.
  exact (proj1 (Unflatten_leaf_error_counts no_call triple [PyInt 1; PyInt 2]) 3 2 eq_refl).
Defined.

(* ------------------------------------------------------------------ *)
(** ** Reconstruction of a node over its children *)

Lemma top_of_app {A} (below ag : list A) (n : Z) :
  0 <= n <= size ag ->
  skipn (Z.to_nat (size (below ++ ag) - n)) (below ++ ag)
    = skipn (Z.to_nat (size ag - n)) ag /\
  firstn (Z.to_nat (size (below ++ ag) - n)) (below ++ ag)
    = below ++ firstn (Z.to_nat (size ag - n)) ag.
Proof.
  intros Hn. rewrite size_app.
  replace (Z.to_nat (size below + size ag - n))
    with (length below + Z.to_nat (size ag - n))%nat by (unfold size in *; lia).
  rewrite skipn_app, firstn_app, skipn_all2, firstn_all2 by lia.
  replace (length below + Z.to_nat (size ag - n) - length below)%nat
    with (Z.to_nat (size ag - n)) by lia.
  auto.
Qed.

Lemma size_one {A} (l : list A) (d : A) : size l = 1 -> l = [last l d].
Proof.
  destruct l as [|x [|y l]]; unfold size; simpl; intros H; try lia. reflexivity.
Qed.

Section ReconstructionOfSubtrees.

Variable py_call : PyObj -> list PyObj -> PyResult.

Lemma Unflatten_node_Ok_known (self : PyTreeSpec) (w w' : Walk) (node : Node) :
  Unflatten_node py_call self w node = Ok w' -> known_kind node = true.
Proof.
  unfold Unflatten_node, known_kind.
  destruct (size (agenda w) <? arity node); [discriminate|].
  destruct (PyTreeKind.of_tag (kind node)); [reflexivity | discriminate].
Qed.

Lemma MakeNode_Ok_known (node : Node) (children : list PyObj) (out : PyObj) :
  MakeNode py_call node children = Ok out -> known_kind node = true.
Proof.
  unfold MakeNode, known_kind.
  destruct (negb (size children =? arity node)); [discriminate|].
  destruct (PyTreeKind.of_tag (kind node)); [reflexivity | discriminate].
Qed.

(** A turn of the loop leaves alone what lies in the agenda below the
    children of its node, and succeeds whatever the counters are. *)
Lemma Unflatten_node_frame (self self' : PyTreeSpec) (below : list PyObj) (d : Z)
    (w w' : Walk) (node : Node) :
  Unflatten_node py_call self w node = Ok w' ->
  Unflatten_node py_call self' (mkWalk (below ++ agenda w) (it w) (leaf_count w + d)) node
    = Ok (mkWalk (below ++ agenda w') (it w') (leaf_count w' + d)).
Proof.
  intros H. pose proof (Unflatten_node_Ok_known _ _ _ _ H) as Hknown.
  apply Unflatten_node_Ok in H
    as (Hge & [(Hl & leaf & Hit & Hag & Hc) | (Hl & Hpos & out & Hmk & Hag & Hit & Hc)]).
  - rewrite Unflatten_node_leaf_like;
      [|exact Hl | simpl; rewrite size_app; pose proof (size_nonneg below); lia].
    simpl. rewrite Hit, Hag, Hc, app_assoc. f_equal. f_equal. lia.
  - rewrite Unflatten_node_container;
      [|exact Hl | exact Hknown | rewrite size_app; pose proof (size_nonneg below); lia].
    destruct (top_of_app below (agenda w) (arity node) ltac:(lia)) as [-> ->].
    rewrite Hmk. simpl. rewrite Hag, Hit, Hc, app_assoc. reflexivity.
Qed.

Lemma Unflatten_loop_frame (self self' : PyTreeSpec) (below : list PyObj) (d : Z)
    (nodes : list Node) (w w' : Walk) :
  Unflatten_loop py_call self nodes w = Ok w' ->
  Unflatten_loop py_call self' nodes (mkWalk (below ++ agenda w) (it w) (leaf_count w + d))
    = Ok (mkWalk (below ++ agenda w') (it w') (leaf_count w' + d)).
Proof.
  unfold Unflatten_loop. revert w; induction nodes as [|node nodes IH]; intros w; simpl.
  - intros [= <-]. reflexivity.
  - intros H. apply bind_Ok in H as (w1 & H1 & H2).
    rewrite (Unflatten_node_frame self self' below d _ _ _ H1). simpl.
    apply (IH w1 H2).
Qed.

(** The traversals of children, one after the other, leave the values of
    the children on the agenda, in order. *)
Lemma Unflatten_loop_children (children : list rebuilt_child) :
  Forall (fun ch => UnflattenImpl py_call (mkSpec (child_nodes ch)) (child_leaves ch)
                    = Ok (child_value ch)) children ->
  forall (self : PyTreeSpec) (ag rest : list PyObj) (c : Z),
  exists c',
    Unflatten_loop py_call self (concat (map child_nodes children))
      (mkWalk ag (concat (map child_leaves children) ++ rest) c)
    = Ok (mkWalk (ag ++ map child_value children) rest c').
Proof.
  induction 1 as [|ch children Hch _ IH]; intros self ag rest c; simpl.
  - exists c. rewrite app_nil_r. reflexivity.
  - unfold UnflattenImpl in Hch. apply bind_Ok in Hch as (w & Hloop & Hend).
    destruct (it w) eqn:Hit; [|discriminate].
    destruct (Z.eqb_spec (size (agenda w)) 1) as [Hone|]; [|discriminate].
    injection Hend as Hv. simpl in Hloop.
    pose proof (size_one _ PyNone Hone) as Hag. rewrite Hv in Hag.
    pose proof (Unflatten_loop_longer py_call _ _ _ _
                  (concat (map child_leaves children) ++ rest) _ _ Hloop) as Hlong.
    pose proof (Unflatten_loop_frame _ self ag c _ _ _ Hlong) as Hframe.
    simpl in Hframe. rewrite Hit, Hag in Hframe. simpl in Hframe.
    rewrite app_nil_r in Hframe.
    destruct (IH self (ag ++ [child_value ch]) rest (leaf_count w + c)) as (c' & Hrest).
    exists c'. unfold Unflatten_loop in *.
    rewrite for_each_app, <- app_assoc, Hframe. simpl.
    rewrite Hrest, <- app_assoc. reflexivity.
Qed.

Lemma Unflatten_node_same_but_counts (self self' : PyTreeSpec) (w w' : Walk) (x y : Node) :
  same_but_counts x y ->
  Unflatten_node py_call self w x = Ok w' -> Unflatten_node py_call self' w y = Ok w'.
Proof.
  destruct x, y. unfold same_but_counts. simpl. intros (-> & -> & -> & ->).
  unfold Unflatten_node, MakeNode. simpl.
  destruct (size (agenda w) <? arity1); [discriminate|].
  destruct (PyTreeKind.of_tag kind1) as [[]|]; try discriminate; auto;
    destruct (it w); auto; discriminate.
Qed.

Lemma Unflatten_loop_same_but_counts (self self' : PyTreeSpec) (xs ys : list Node) :
  Forall2 same_but_counts xs ys ->
  forall w w', Unflatten_loop py_call self xs w = Ok w' ->
               Unflatten_loop py_call self' ys w = Ok w'.
Proof.
  unfold Unflatten_loop. induction 1 as [|x y xs ys Hxy _ IH]; intros w w'; simpl; [auto|].
  intros H. apply bind_Ok in H as (w1 & H1 & H2).
  rewrite (Unflatten_node_same_but_counts self self' _ _ _ _ Hxy H1). simpl. auto.
Qed.

End ReconstructionOfSubtrees.

(** X7: reconstruction composes.  When each child traversal rebuilds its
    own leaves to its value, the children's traversals followed by a
    node that is neither a leaf nor [None] rebuild the children's leaves,
    in order, to what [MakeNode] makes of the children's values. *)
Theorem Unflatten_node_over_children
    (py_call : PyObj -> list PyObj -> PyResult)
    (children : list rebuilt_child) (parent : Node) (out : PyObj) :
  Forall (fun ch => UnflattenImpl py_call (mkSpec (child_nodes ch)) (child_leaves ch)
                    = Ok (child_value ch)) children ->
  leaf_like parent = false ->
  MakeNode py_call parent (map child_value children) = Ok out ->
  UnflattenImpl py_call (mkSpec (concat (map child_nodes children) ++ [parent]))
    (concat (map child_leaves children)) = Ok out.
Proof.
  intros Hchildren Hleaf Hmk.
  set (self := mkSpec (concat (map child_nodes children) ++ [parent])).
  destruct (Unflatten_loop_children py_call children Hchildren self [] [] 0) as (c' & Hloop).
  rewrite app_nil_r in Hloop. simpl in Hloop.
  pose proof (MakeNode_Ok_arity _ _ _ _ Hmk) as Har.
  pose proof (MakeNode_Ok_known _ _ _ _ Hmk) as Hknown.
  unfold UnflattenImpl, Unflatten_loop in *. simpl traversal.
  rewrite for_each_app, Hloop. simpl.
  rewrite Unflatten_node_container;
    [|exact Hleaf | exact Hknown | rewrite <- Har; pose proof (size_nonneg (map child_value children)); lia].
  rewrite <- Har, Z.sub_diag. simpl. rewrite Hmk. reflexivity.
Qed.

Lemma Unflatten_node_over_children_witness :
  UnflattenImpl no_call
    (mkSpec (concat (map child_nodes
                       [(traversal triple, [PyInt 1; PyInt 2; PyInt 3],
                         PyTuple [PyInt 1; PyInt 2; PyInt 3]);
                        ([leaf_node], [PyInt 4], PyInt 4)])
             ++ [list_node 2 4 6]))
    (concat (map child_leaves
               [(traversal triple, [PyInt 1; PyInt 2; PyInt 3],
                 PyTuple [PyInt 1; PyInt 2; PyInt 3]);
                ([leaf_node], [PyInt 4], PyInt 4)]))
  = Ok (PyList [PyTuple [PyInt 1; PyInt 2; PyInt 3]; PyInt 4]).
Proof.
  apply Unflatten_node_over_children; [|reflexivity|reflexivity].
  repeat constructor.
Defined.

(* ------------------------------------------------------------------ *)
(** ** Rendering: what it reads, when it succeeds, how it composes *)

Lemma append_entries_total {K} (entry : K -> string -> string) (keys : list K) :
  forall (child_iter : list string) (separator representation : string),
    (length keys <= length child_iter)%nat ->
    exists text, append_entries entry keys child_iter separator representation = Ok text.
Proof.
  induction keys as [|key keys IH]; intros child_iter separator representation Hlen; simpl.
  - eauto.
  - destruct child_iter as [|child child_iter]; simpl in Hlen; [lia|].
    apply IH. lia.
Qed.

Section RenderingProperties.

Variable py_repr : PyObj -> string.
Variable py_str : PyObj -> string.

Lemma ToString_node_same_but_counts (agenda : list string) (x y : Node) :
  same_but_counts x y ->
  ToString_node py_repr py_str agenda x = ToString_node py_repr py_str agenda y.
Proof.
  destruct x, y. unfold same_but_counts. simpl. intros (-> & -> & -> & ->). reflexivity.
Qed.

Lemma ToString_loop_same_but_counts (xs ys : list Node) :
  Forall2 same_but_counts xs ys ->
  forall agenda, ToString_loop py_repr py_str xs agenda = ToString_loop py_repr py_str ys agenda.
Proof.
  unfold ToString_loop. induction 1 as [|x y xs ys Hxy _ IH]; intros agenda; simpl; [reflexivity|].
  rewrite (ToString_node_same_but_counts agenda x y Hxy).
  destruct (ToString_node py_repr py_str agenda y); simpl; auto.
Qed.

(** On plain nodes a successful rendering follows the stack discipline
    of the data model, and the discipline is all it needs. *)
Lemma ToString_loop_depth (nodes : list Node) :
  forallb plain_node nodes = true ->
  forall agenda agenda',
    ToString_loop py_repr py_str nodes agenda = Ok agenda' ->
    postorder_depth nodes (size agenda) = Some (size agenda').
Proof.
  unfold ToString_loop. induction nodes as [|node nodes IH]; simpl.
  - intros _ agenda agenda' [= <-]. reflexivity.
  - intros [Hp Hps]%andb_prop agenda agenda' H.
    apply bind_Ok in H as (a1 & H1 & H2). apply (IH Hps) in H2.
    apply ToString_node_Ok in H1 as (Har & [(Hk & ->) | (Hk & r & ->)]).
    + unfold leaf_like. rewrite Hk. rewrite size_app in H2. exact H2.
    + rewrite size_app in H2.
      replace (size (firstn (Z.to_nat (size agenda - arity node)) agenda))
        with (size agenda - arity node) in H2
        by (unfold size in *; rewrite length_firstn; lia).
      unfold plain_node, leaf_like in *.
      destruct (PyTreeKind.of_tag (kind node)) as [[]|]; try discriminate;
        try contradiction;
        try (destruct (Z.ltb_spec (size agenda) (arity node)); [lia | exact H2]).
      apply Z.eqb_eq in Hp. rewrite Hp, Z.sub_0_r in H2. exact H2.
Qed.

Lemma ToString_loop_total (nodes : list Node) :
  forallb plain_node nodes = true ->
  forall agenda d,
    postorder_depth nodes (size agenda) = Some d ->
    exists agenda', ToString_loop py_repr py_str nodes agenda = Ok agenda'.
Proof.
  unfold ToString_loop. induction nodes as [|node nodes IH]; simpl; [eauto|].
  intros [Hp Hps]%andb_prop agenda d Hdepth.
  destruct (plain_node_known node Hp) as [_ Hpos].
  assert (Hstep : exists agenda1,
             ToString_node py_repr py_str agenda node = Ok agenda1 /\
             postorder_depth nodes (size agenda1) = Some d).
  { unfold ToString_node, plain_node, leaf_like in *.
    destruct (PyTreeKind.of_tag (kind node)) as [[]|] eqn:Hk; try discriminate.
    - apply Z.eqb_eq in Hp. rewrite Hp.
      destruct (Z.ltb_spec (size agenda) 0); [pose proof (size_nonneg agenda); lia|].
      simpl. eexists. split; [reflexivity|]. rewrite size_app. exact Hdepth.
    - apply Z.eqb_eq in Hp. rewrite Hp.
      destruct (Z.ltb_spec (size agenda) 0); [pose proof (size_nonneg agenda); lia|].
      simpl. eexists. split; [reflexivity|]. rewrite size_app.
      replace (size (firstn (Z.to_nat (size agenda - 0)) agenda)) with (size agenda)
        by (unfold size; rewrite length_firstn; lia).
      exact Hdepth.
    - destruct (Z.ltb_spec (size agenda) (arity node)); [discriminate|].
      destruct (Z.ltb_spec (arity node) 0); [lia|].
      eexists. split; [reflexivity|]. rewrite size_app.
      replace (size (firstn (Z.to_nat (size agenda - arity node)) agenda))
        with (size agenda - arity node)
        by (unfold size in *; rewrite length_firstn; lia).
      exact Hdepth.
    - destruct (Z.ltb_spec (size agenda) (arity node)); [discriminate|].
      destruct (Z.ltb_spec (arity node) 0); [lia|].
      eexists. split; [reflexivity|]. rewrite size_app.
      replace (size (firstn (Z.to_nat (size agenda - arity node)) agenda))
        with (size agenda - arity node)
        by (unfold size in *; rewrite length_firstn; lia).
      exact Hdepth.
    - destruct (Z.ltb_spec (size agenda) (arity node)); [discriminate|].
      destruct (Z.ltb_spec (arity node) 0); [lia|].
      destruct (node_data node) as [[]|]; try discriminate.
      apply andb_prop in Hp as [Hlen%Z.eqb_eq _]. simpl.
      rewrite Hlen, Z.eqb_refl. simpl.
      match goal with
      | |- context [append_entries ?e ?k ?c ?s ?r] =>
          destruct (append_entries_total e k c s r) as (text & ->)
      end.
      { rewrite length_skipn. unfold size in *. lia. }
      simpl. eexists. split; [reflexivity|]. rewrite size_app.
      replace (size (firstn (Z.to_nat (size agenda - arity node)) agenda))
        with (size agenda - arity node)
        by (unfold size in *; rewrite length_firstn; lia).
      exact Hdepth. }
  destruct Hstep as (agenda1 & -> & Hd1). simpl. exact (IH Hps agenda1 d Hd1).
Qed.

End RenderingProperties.

(** X8: [num_leaves] and [num_nodes] play no part in rendering nor in
    the value rebuilt: two traversals that differ only in these fields
    have the same rendering (or the same failure), and what one rebuilds
    from a leaf sequence the other rebuilds too. *)
Theorem counts_are_not_read
    (py_call : PyObj -> list PyObj -> PyResult) (py_repr py_str : PyObj -> string)
    (self other : PyTreeSpec) :
  Forall2 same_but_counts (traversal self) (traversal other) ->
  ToString py_repr py_str self = ToString py_repr py_str other /\
  (forall leaves out,
      UnflattenImpl py_call self leaves = Ok out ->
      UnflattenImpl py_call other leaves = Ok out).
Proof.
  intros Hsame. split.
  - unfold ToString. rewrite (ToString_loop_same_but_counts _ _ _ _ Hsame). reflexivity.
  - intros leaves out H. unfold UnflattenImpl in *.
    apply bind_Ok in H as (w & Hloop & Hend).
    rewrite (Unflatten_loop_same_but_counts py_call self other _ _ Hsame _ _ Hloop). simpl.
    destruct (it w); [exact Hend | discriminate].
Qed.

Lemma counts_are_not_read_witness :
  ToString quoted quoted triple
    = ToString quoted quoted (mkSpec [leaf_node; leaf_node; leaf_node; tuple_node 3 0 0]).
Proof.
  apply (counts_are_not_read no_call quoted quoted triple
           (mkSpec [leaf_node; leaf_node; leaf_node; tuple_node 3 0 0])).
  repeat constructor.
Defined.

(** X9: on a traversal of leaves, [None], tuples, lists and dicts (with
    well-formed key lists), [ToString] returns a text exactly when the
    traversal is post-order consistent. *)
Theorem ToString_plain_succeeds_iff (py_repr py_str : PyObj -> string) (self : PyTreeSpec) :
  forallb plain_node (traversal self) = true ->
  ((exists text, ToString py_repr py_str self = Ok text) <->
   postorder_depth (traversal self) 0 = Some 1).
Proof.
  intros Hplain. split.
  - intros (text & H). unfold ToString in H. apply bind_Ok in H as (agenda & Hloop & Hend).
    destruct (Z.eqb_spec (size agenda) 1) as [Hone|]; [|discriminate].
    apply (ToString_loop_depth _ _ _ Hplain) in Hloop. rewrite Hone in Hloop. exact Hloop.
  - intros Hdepth.
    destruct (ToString_loop_total py_repr py_str _ Hplain [] 1 Hdepth) as (agenda & Hloop).
    pose proof (ToString_loop_depth _ _ _ Hplain _ _ Hloop) as Hd.
    change (postorder_depth (traversal self) 0 = Some (size agenda)) in Hd.
    rewrite Hdepth in Hd. injection Hd as Hd.
    unfold ToString. rewrite Hloop. simpl. rewrite <- Hd. simpl. eauto.
Qed.

Lemma ToString_plain_succeeds_iff_witness :
  exists text, ToString quoted quoted dict_of_list_and_none = Ok text.
Proof.
  apply (proj2 (ToString_plain_succeeds_iff quoted quoted dict_of_list_and_none eq_refl)).
  reflexivity.
Defined.

Section RenderingOfSubtrees.

Variable py_repr : PyObj -> string.
Variable py_str : PyObj -> string.

(** A turn of the rendering loop leaves alone what lies in the agenda
    below the children of its node. *)
Lemma ToString_node_frame (below agenda agenda' : list string) (node : Node) :
  ToString_node py_repr py_str agenda node = Ok agenda' ->
  ToString_node py_repr py_str (below ++ agenda) node = Ok (below ++ agenda').
Proof.
  intros H. pose proof (ToString_node_Ok _ _ _ _ _ H) as (Har & _).
  revert H. unfold ToString_node.
  destruct (Z.ltb_spec (size (below ++ agenda)) (arity node));
    [rewrite size_app in *; pose proof (size_nonneg below); lia|].
  destruct (Z.ltb_spec (size agenda) (arity node)); [lia|].
  destruct (Z.ltb_spec (arity node) 0); [lia|].
  destruct (top_of_app below agenda (arity node) Har) as [-> ->].
  generalize (skipn (Z.to_nat (size agenda - arity node)) agenda) as top.
  generalize (firstn (Z.to_nat (size agenda - arity node)) agenda) as base.
  intros base top.
  destruct (PyTreeKind.of_tag (kind node)) as [[]|]; unfold bind;
    repeat first
      [ discriminate
      | intros [= <-]; rewrite <- ?app_assoc; reflexivity
      | match goal with
        | |- context [match ?x with _ => _ end] => destruct x
        end ].
Qed.

Lemma ToString_loop_frame (below : list string) (nodes : list Node) :
  forall agenda agenda',
    ToString_loop py_repr py_str nodes agenda = Ok agenda' ->
    ToString_loop py_repr py_str nodes (below ++ agenda) = Ok (below ++ agenda').
Proof.
  unfold ToString_loop. induction nodes as [|node nodes IH]; intros agenda agenda'; simpl.
  - intros [= <-]. reflexivity.
  - intros H. apply bind_Ok in H as (a1 & H1 & H2).
    rewrite (ToString_node_frame below _ _ _ H1). simpl. exact (IH _ _ H2).
Qed.

Lemma ToString_loop_children (children : list rendered_child) :
  Forall (fun ch => ToString_loop py_repr py_str (fst ch) [] = Ok [snd ch]) children ->
  forall agenda,
    ToString_loop py_repr py_str (concat (map fst children)) agenda
      = Ok (agenda ++ map snd children).
Proof.
  induction 1 as [|ch children Hch _ IH]; intros agenda; simpl.
  - rewrite app_nil_r. reflexivity.
  - unfold ToString_loop in *. rewrite for_each_app.
    pose proof (ToString_loop_frame agenda _ _ _ Hch) as Hframe.
    unfold ToString_loop in Hframe. rewrite app_nil_r in Hframe. rewrite Hframe. simpl.
    rewrite IH, <- app_assoc. reflexivity.
Qed.

End RenderingOfSubtrees.

(** X10: rendering composes.  When each child traversal renders to its
    text, the children's traversals followed by a list node of their
    number render to the texts joined by ", " between brackets, and
    followed by a tuple node to the same between parentheses, with a
    comma after a single child. *)
Theorem ToString_node_over_children
    (py_repr py_str : PyObj -> string) (children : list rendered_child) (parent : Node) :
  Forall (fun ch => ToString_loop py_repr py_str (fst ch) [] = Ok [snd ch]) children ->
  arity parent = size children ->
  (is_kind PyTreeKind.List parent = true ->
   ToString py_repr py_str (mkSpec (concat (map fst children) ++ [parent]))
     = Ok ("PyTreeSpec(" ++ ("[" ++ String.concat ", " (map snd children) ++ "]") ++ ")")%string)
  /\
  (is_kind PyTreeKind.Tuple parent = true ->
   ToString py_repr py_str (mkSpec (concat (map fst children) ++ [parent]))
     = Ok ("PyTreeSpec("
           ++ ("(" ++ (if (size children =? 1)%Z
                       then String.concat ", " (map snd children) ++ ","
                       else String.concat ", " (map snd children)) ++ ")")
           ++ ")")%string).
Proof.
  intros Hchildren Har.
  assert (Hloop := ToString_loop_children py_repr py_str children Hchildren []).
  simpl in Hloop.
  assert (Hsize : size (map snd children) = arity parent)
    by (rewrite Har; unfold size; rewrite length_map; reflexivity).
  assert (Hnode : forall k, is_kind k parent = true ->
             ToString_loop py_repr py_str (concat (map fst children) ++ [parent]) []
             = ToString_node py_repr py_str (map snd children) parent).
  { intros k _. unfold ToString_loop in *. rewrite for_each_app, Hloop. simpl.
    destruct (ToString_node py_repr py_str (map snd children) parent); reflexivity. }
  split; intros Hk; unfold ToString; simpl traversal; rewrite (Hnode _ Hk);
    apply Z.eqb_eq in Hk; unfold ToString_node; rewrite Hk, <- Hsize, Z.sub_diag;
    destruct (Z.ltb_spec (size (map snd children)) (size (map snd children))); try lia;
    destruct (Z.ltb_spec (size (map snd children)) 0);
    try (pose proof (size_nonneg (map snd children)); lia);
    simpl; replace (size (map snd children)) with (size children)
      by (unfold size; rewrite length_map; reflexivity);
    reflexivity.
Qed.

Lemma ToString_node_over_children_witness :
  ToString quoted quoted
    (mkSpec (concat (map fst [(traversal triple, "(*, *, *)"%string); ([leaf_node], "*"%string)])
             ++ [list_node 2 4 6]))
  = Ok "PyTreeSpec([(*, *, *), *])"%string.
Proof.
  apply (proj1 (ToString_node_over_children quoted quoted
                  [(traversal triple, "(*, *, *)"%string); ([leaf_node], "*"%string)]
                  (list_node 2 4 6) ltac:(repeat constructor) eq_refl)).
  reflexivity.
Defined.

(* ------------------------------------------------------------------ *)
(** ** Dict nodes: key order, missing keys, keys that cannot be hashed *)

Lemma existsb_false {A} (f : A -> bool) (l : list A) :
  existsb f l = false <-> forall x, In x l -> f x = false.
Proof.
  induction l as [|y l IH]; simpl.
  - split; [intros _ x [] | reflexivity].
  - rewrite orb_false_iff, IH. split.
    + intros [Hy Hl] x [<-|Hin]; auto.
    + intros H. split; [apply H; auto | intros x Hin; apply H; auto].
Qed.

Lemma dict_assign_fresh (d : list (PyObj * PyObj)) (k c : PyObj) :
  dict_contains d k = false -> dict_assign d k c = d ++ [(k, c)].
Proof.
  induction d as [|[k0 v0] d IH]; simpl; [reflexivity|].
  intros [H0 Hd]%orb_false_iff. simpl in H0. rewrite H0, (IH Hd). reflexivity.
Qed.

Lemma dict_contains_app (d1 d2 : list (PyObj * PyObj)) (key : PyObj) :
  dict_contains (d1 ++ d2) key = dict_contains d1 key || dict_contains d2 key.
Proof. unfold dict_contains. apply existsb_app. Qed.

Lemma MakeNode_dict_loop_distinct (children keys : list PyObj) :
  forall dict,
    length keys = length children ->
    forallb (fun key => py_hashable key) keys = true ->
    has_duplicate keys = false ->
    existsb (dict_contains dict) keys = false ->
    MakeNode_dict_loop dict keys children = Ok (dict ++ combine keys children).
Proof.
  revert keys; induction children as [|child children IH]; intros [|k keys] dict;
    simpl; try discriminate.
  - intros _ _ _ _. rewrite app_nil_r. reflexivity.
  - intros [= Hlen] [Hk Hkeys]%andb_prop [Hfresh Hdup]%orb_false_iff
           [Hnew Hold]%orb_false_iff.
    unfold dict_setitem. rewrite Hk. simpl.
    rewrite (dict_assign_fresh dict k child Hnew).
    rewrite (IH keys _ Hlen Hkeys Hdup), <- app_assoc; [reflexivity|].
    apply existsb_false. intros k' Hin. rewrite dict_contains_app. simpl.
    rewrite (proj1 (existsb_false _ _) Hold k' Hin),
            (proj1 (existsb_false _ _) Hfresh k' Hin).
    reflexivity.
Qed.

Lemma MakeNode_dict_loop_short (keys : list PyObj) :
  forall dict children,
    (length keys < length children)%nat ->
    forallb (fun key => py_hashable key) keys = true ->
    MakeNode_dict_loop dict keys children = Throw (PyErr IndexError).
Proof.
  induction keys as [|k keys IH]; intros dict [|child children]; simpl; try lia.
  - reflexivity.
  - intros Hlen [Hk Hkeys]%andb_prop. unfold dict_setitem. rewrite Hk. simpl.
    apply IH; [lia | exact Hkeys].
Qed.

Lemma MakeNode_dict_loop_unhashable (before : list PyObj) :
  forall dict children (key : PyObj) (after : list PyObj),
    (length before < length children)%nat ->
    forallb (fun key => py_hashable key) before = true ->
    py_hashable key = false ->
    MakeNode_dict_loop dict (before ++ key :: after) children = Throw (PyErr TypeError).
Proof.
  induction before as [|k before IH]; intros dict [|child children] key after; simpl; try lia.
  - intros _ _ Hkey. unfold dict_setitem. rewrite Hkey. reflexivity.
  - intros Hlen [Hk Hbefore]%andb_prop Hkey. unfold dict_setitem at 1. rewrite Hk. simpl.
    apply IH; [lia | exact Hbefore | exact Hkey].
Qed.

Lemma MakeNode_dict_loop_extra (children : list PyObj) :
  forall dict keys extra,
    length keys = length children ->
    MakeNode_dict_loop dict (keys ++ extra) children = MakeNode_dict_loop dict keys children.
Proof.
  induction children as [|child children IH]; intros dict [|k keys] extra; simpl;
    try discriminate; try reflexivity.
  intros [= Hlen]. destruct (dict_setitem dict k child); simpl; [apply IH; exact Hlen | reflexivity].
Qed.

Lemma MakeNode_Dict (py_call : PyObj -> list PyObj -> PyResult)
    (node : Node) (keys children : list PyObj) :
  is_kind PyTreeKind.Dict node = true ->
  node_data node = Some (PyList keys) ->
  size children = arity node ->
  MakeNode py_call node children =
    (dict <- MakeNode_dict_loop [] keys children ;; Ok (PyDict dict)).
Proof.
  intros Hk%Z.eqb_eq Hdata Hsize. unfold MakeNode.
  rewrite Hsize, Z.eqb_refl, Hk, Hdata. reflexivity.
Qed.

(** X11: a dict node whose keys are hashable, as many as the arity and
    all different is rebuilt to the dict that binds each key to the
    child at its position, in the order of the key list. *)
Theorem MakeNode_dict_keeps_key_order
    (py_call : PyObj -> list PyObj -> PyResult) (node : Node) (keys children : list PyObj) :
  is_kind PyTreeKind.Dict node = true ->
  node_data node = Some (PyList keys) ->
  size children = arity node ->
  size keys = arity node ->
  forallb (fun key => py_hashable key) keys = true ->
  has_duplicate keys = false ->
  MakeNode py_call node children = Ok (PyDict (combine keys children)).
Proof.
  intros Hk Hdata Hsize Hkeys Hhash Hdup.
  rewrite (MakeNode_Dict py_call node keys children Hk Hdata Hsize).
  rewrite (MakeNode_dict_loop_distinct children keys []); auto.
  - unfold size in *. lia.
  - apply existsb_false. intros; reflexivity.
Qed.

Lemma MakeNode_dict_keeps_key_order_witness :
  MakeNode no_call (dict_node [PyStr "b"; PyStr "a"] 2 2 3) [PyInt 1; PyInt 2]
  = Ok (PyDict (combine [PyStr "b"; PyStr "a"] [PyInt 1; PyInt 2])).
Proof.
  apply MakeNode_dict_keeps_key_order; reflexivity.
Defined.

(** X12: the failures of a dict node in [MakeNode], called with [arity]
    children.  With fewer (hashable) keys than the arity it raises
    IndexError; with a key that cannot be hashed at a position below the
    arity, after hashable ones, it raises TypeError; keys beyond the
    arity are not looked at. *)
Theorem MakeNode_dict_key_errors
    (py_call : PyObj -> list PyObj -> PyResult) (node : Node) (keys children : list PyObj) :
  is_kind PyTreeKind.Dict node = true ->
  node_data node = Some (PyList keys) ->
  size children = arity node ->
  (size keys < arity node ->
   forallb (fun key => py_hashable key) keys = true ->
   MakeNode py_call node children = Throw (PyErr IndexError)) /\
  (forall before key after,
      keys = before ++ key :: after -> size before < arity node ->
      forallb (fun k => py_hashable k) before = true -> py_hashable key = false ->
      MakeNode py_call node children = Throw (PyErr TypeError)) /\
  (forall used extra,
      keys = used ++ extra -> size used = arity node ->
      MakeNode py_call node children =
        (dict <- MakeNode_dict_loop [] used children ;; Ok (PyDict dict))).
Proof.
  intros Hk Hdata Hsize.
  rewrite (MakeNode_Dict py_call node keys children Hk Hdata Hsize).
  split; [|split].
  - intros Hshort Hhash.
    rewrite MakeNode_dict_loop_short; [reflexivity | unfold size in *; lia | exact Hhash].
  - intros before key after -> Hpos Hhash Hkey.
    rewrite MakeNode_dict_loop_unhashable;
      [reflexivity | unfold size in *; lia | exact Hhash | exact Hkey].
  - intros used extra -> Hused.
    rewrite MakeNode_dict_loop_extra; [reflexivity | unfold size in *; lia].
Qed.

Lemma MakeNode_dict_key_errors_witness :
  MakeNode no_call (dict_node [PyStr "a"] 2 2 3) [PyInt 1; PyInt 2] = Throw (PyErr IndexError) /\
  MakeNode no_call (dict_node [PyStr "a"; unhashable_key] 2 2 3) [PyInt 1; PyInt 2]
    = Throw (PyErr TypeError).
Proof.
  split.
  - apply (proj1 (MakeNode_dict_key_errors no_call (dict_node [PyStr "a"] 2 2 3)
                    [PyStr "a"] [PyInt 1; PyInt 2] eq_refl eq_refl eq_refl));
      reflexivity.
  - apply (proj1 (proj2 (MakeNode_dict_key_errors no_call
                           (dict_node [PyStr "a"; unhashable_key] 2 2 3)
                           [PyStr "a"; unhashable_key] [PyInt 1; PyInt 2]
                           eq_refl eq_refl eq_refl))
             [PyStr "a"] unhashable_key []); reflexivity.
Defined.

(** X13: rendering a dict node (with a key list, the agenda deep enough
    for its arity) fails with "Number of keys and entries does not
    match." exactly when the number of keys differs from the arity;
    otherwise it succeeds. *)
Theorem ToString_dict_key_count
    (py_repr py_str : PyObj -> string) (agenda : list string) (node : Node)
    (keys : list PyObj) :
  is_kind PyTreeKind.Dict node = true ->
  node_data node = Some (PyList keys) ->
  0 <= arity node <= size agenda ->
  (size keys <> arity node <->
   ToString_node py_repr py_str agenda node = Throw KeysMismatch) /\
  (size keys = arity node <->
   exists agenda', ToString_node py_repr py_str agenda node = Ok agenda').
Proof.
  intros Hk%Z.eqb_eq Hdata Har. unfold ToString_node.
  destruct (Z.ltb_spec (size agenda) (arity node)); [lia|].
  destruct (Z.ltb_spec (arity node) 0); [lia|].
  rewrite Hk, Hdata. simpl.
  destruct (Z.eqb_spec (size keys) (arity node)) as [Heq|Hne]; simpl.
  - match goal with
    | |- context [append_entries ?e ?k ?c ?s ?r] =>
        destruct (append_entries_total e k c s r) as (text & ->)
    end.
    { rewrite length_skipn. unfold size in *. lia. }
    simpl. split; split; try congruence; eauto.
  - split; split; try congruence; try reflexivity.
    intros (agenda' & Hok). discriminate Hok.
Qed.

Lemma ToString_dict_key_count_witness :
  ToString_node quoted quoted ["*"; "*"]%string (dict_node [PyStr "a"] 2 2 3)
  = Throw KeysMismatch.
Proof.
  apply (proj1 (ToString_dict_key_count quoted quoted ["*"; "*"]%string
                  (dict_node [PyStr "a"] 2 2 3) [PyStr "a"] eq_refl eq_refl
                  ltac:(unfold size; simpl; lia))).
  discriminate.
Defined.

(* ------------------------------------------------------------------ *)
(** ** Decoding: what it yields, when a registration is unknown *)

Lemma cast_ssize_t_Ok (o : PyObj) (z : Z) :
  cast_ssize_t o = Ok z -> o = PyInt z /\ fits_ssize_t z = true.
Proof.
  unfold cast_ssize_t. destruct o; try discriminate.
  destruct (fits_ssize_t z0) eqn:E; [intros [= ->]; auto | discriminate].
Qed.

Lemma cast_ssize_t_Throw (o : PyObj) (e : Exception) :
  cast_ssize_t o = Throw e -> e = CastError.
Proof.
  unfold cast_ssize_t. destruct o; try (intros [= <-]; reflexivity).
  destruct (fits_ssize_t z); [discriminate | intros [= <-]; reflexivity].
Qed.

Lemma py_iter_Throw (o : PyObj) (e : Exception) :
  py_iter o = Throw e -> e = PyErr TypeError.
Proof. destruct o; simpl; try discriminate; intros [= <-]; reflexivity. Qed.

Section DecodingProperties.

Variable Lookup : PyObj -> option Registration.

(** A decoded node, encoded, is decoded to itself when the registry
    files each registration under its own type. *)
Lemma FromPicklable_item_reencode (tree : list Node) (item : PyObj) (node : Node) :
  (forall t r, Lookup t = Some r -> type r = t) ->
  FromPicklable_item Lookup [] item = Ok [node] ->
  FromPicklable_item Lookup tree (encode_node node) = Ok (tree ++ [node]).
Proof.
  intros Hkeyed H. unfold FromPicklable_item in H.
  destruct (cast_tuple item) as [[|t0 [|t1 [|t2 [|t3 [|t4 [|t5 [|]]]]]]]|]; simpl in H;
    try discriminate.
  apply bind_Ok in H as (k & Hk & H). apply bind_Ok in H as (n & Hn & H).
  apply bind_Ok in H as (d & Hd & H). apply bind_Ok in H as (c & Hc & H).
  apply bind_Ok in H as (l & Hl & H). apply bind_Ok in H as (m & Hm & H).
  injection H as <-. clear Hk.
  pose proof (static_cast_fits k) as Hk. pose proof (static_cast_idem k) as Hidem.
  remember (static_cast_PyTreeKind k) as stored eqn:Hstored. clear Hstored k.
  apply cast_ssize_t_Ok in Hn as [_ Hn], Hl as [_ Hl], Hm as [_ Hm].
  unfold FromPicklable_item, encode_node, cast_ssize_t. simpl.
  rewrite Hk, Hn. simpl. rewrite Hidem.
  destruct (PyTreeKind.of_tag stored) as [[]|]; exc_inv Hd; exc_inv Hc;
    try (injection Hd as <-); try (injection Hc as <-); simpl;
    try (rewrite Hl, Hm; reflexivity).
  - unfold cast_type in Hx. destruct t2; try discriminate. injection Hx as <-.
    simpl. rewrite Hl, Hm. reflexivity.
  - unfold cast_list in Hx. apply bind_Ok in Hx as (keys & _ & [= <-]).
    simpl. rewrite Hl, Hm. reflexivity.
  - destruct (is_none t3) eqn:Hnone; [discriminate|].
    rewrite (Hkeyed _ _ E), Hnone, E. simpl. rewrite Hl, Hm. reflexivity.
Qed.

Lemma FromPicklable_loop_reencode (items : list PyObj) (nodes : list Node) :
  (forall t r, Lookup t = Some r -> type r = t) ->
  Forall2 (fun item node => FromPicklable_item Lookup [] item = Ok [node]) items nodes ->
  forall tree,
    for_each (FromPicklable_item Lookup) (map encode_node nodes) tree = Ok (tree ++ nodes).
Proof.
  intros Hkeyed. induction 1 as [|item node items nodes Hitem _ IH]; intros tree; simpl.
  - rewrite app_nil_r. reflexivity.
  - rewrite (FromPicklable_item_reencode tree item node Hkeyed Hitem). simpl.
    rewrite IH, <- app_assoc. reflexivity.
Qed.

(** Why decoding one record throws "Unknown custom type". *)
Lemma FromPicklable_item_unknown (tree : list Node) (item t : PyObj) :
  FromPicklable_item Lookup tree item = Throw (UnknownCustomType t) <->
  exists k n t2 t4 t5,
    cast_tuple item = Ok [PyInt k; PyInt n; t2; t; t4; t5] /\
    fits_ssize_t k = true /\ fits_ssize_t n = true /\
    PyTreeKind.of_tag (static_cast_PyTreeKind k) = Some PyTreeKind.Custom /\
    (is_none t = true \/ Lookup t = None).
Proof.
  unfold FromPicklable_item. split.
  - destruct (cast_tuple item) as [[|t0 [|t1 [|t2 [|t3 [|t4 [|t5 [|]]]]]]]|e0] eqn:Htuple;
      simpl; try discriminate.
    + destruct (cast_ssize_t t0) as [k|e] eqn:Hk; simpl;
        [|apply cast_ssize_t_Throw in Hk; subst; discriminate].
      destruct (cast_ssize_t t1) as [n|e] eqn:Hn; simpl;
        [|apply cast_ssize_t_Throw in Hn; subst; discriminate].
      apply cast_ssize_t_Ok in Hk as [-> Hk], Hn as [-> Hn].
      destruct (PyTreeKind.of_tag (static_cast_PyTreeKind k)) as [[]|] eqn:Hkind; simpl;
        try (destruct (negb (is_none t2)); simpl; [discriminate|];
             destruct (negb (is_none t3)); simpl; [discriminate|];
             destruct (cast_ssize_t t4) as [l|e] eqn:Hl; simpl;
               [|apply cast_ssize_t_Throw in Hl; subst; discriminate];
             destruct (cast_ssize_t t5) as [m|e] eqn:Hm; simpl;
               [discriminate | apply cast_ssize_t_Throw in Hm; subst; discriminate]).
      * unfold cast_type. destruct t2; simpl; try discriminate.
        destruct (negb (is_none t3)); simpl; [discriminate|].
        destruct (cast_ssize_t t4) as [l|e] eqn:Hl; simpl;
          [|apply cast_ssize_t_Throw in Hl; subst; discriminate].
        destruct (cast_ssize_t t5) as [m|e] eqn:Hm; simpl;
          [discriminate | apply cast_ssize_t_Throw in Hm; subst; discriminate].
      * unfold cast_list. destruct (py_iter t2) as [keys|e] eqn:Hkeys; simpl;
          [|apply py_iter_Throw in Hkeys; subst; discriminate].
        destruct (negb (is_none t3)); simpl; [discriminate|].
        destruct (cast_ssize_t t4) as [l|e] eqn:Hl; simpl;
          [|apply cast_ssize_t_Throw in Hl; subst; discriminate].
        destruct (cast_ssize_t t5) as [m|e] eqn:Hm; simpl;
          [discriminate | apply cast_ssize_t_Throw in Hm; subst; discriminate].
      * destruct (if is_none t3 then None else Lookup t3) as [r|] eqn:Hfind; simpl.
        -- destruct (cast_ssize_t t4) as [l|e] eqn:Hl; simpl;
             [|apply cast_ssize_t_Throw in Hl; subst; discriminate].
           destruct (cast_ssize_t t5) as [m|e] eqn:Hm; simpl;
             [discriminate | apply cast_ssize_t_Throw in Hm; subst; discriminate].
        -- intros [= <-]. exists k, n, t2, t4, t5. repeat split; auto.
           destruct (is_none t3); auto.
    + intros [= ->]. unfold cast_tuple in Htuple. apply py_iter_Throw in Htuple. discriminate.
  - intros (k & n & t2 & t4 & t5 & -> & Hk & Hn & Hkind & Hfind). simpl.
    unfold cast_ssize_t. rewrite Hk, Hn. simpl. rewrite Hkind. simpl.
    destruct Hfind as [-> | Hfind]; [reflexivity|].
    rewrite Hfind. destruct (is_none t); reflexivity.
Qed.

End DecodingProperties.

(** X14: when the registry files each registration under its own type,
    every decoded traversal, encoded again, is decoded to itself: the
    codec fixes what it has produced, also for nodes whose kind tag is
    no enumerator. *)
Theorem FromPicklable_fixed_by_reencoding
    (Lookup : PyObj -> option Registration) (picklable : PyObj) (decoded : PyTreeSpec) :
  (forall t r, Lookup t = Some r -> type r = t) ->
  FromPicklableImpl Lookup picklable = Ok decoded ->
  FromPicklableImpl Lookup (ToPicklable decoded) = Ok decoded.
Proof.
  intros Hkeyed H. unfold FromPicklableImpl in H.
  apply bind_Ok in H as (items & _ & H). apply bind_Ok in H as (tree & Hloop & [= <-]).
  apply FromPicklable_loop_Forall2 in Hloop as (nodes & Hnodes & ->).
  unfold FromPicklableImpl, ToPicklable. simpl.
  rewrite (FromPicklable_loop_reencode Lookup items nodes Hkeyed Hnodes []). reflexivity.
Qed.

Lemma FromPicklable_fixed_by_reencoding_witness :
  exists decoded,
    FromPicklableImpl any_registry boxed_leaf_pickle = Ok decoded /\
    FromPicklableImpl any_registry (ToPicklable decoded) = Ok decoded.
Proof.
  eexists. split; [reflexivity|].
  apply (FromPicklable_fixed_by_reencoding any_registry boxed_leaf_pickle);
    [intros t r [= <-]; reflexivity | reflexivity].
Defined.

(** X15: decoding throws "Unknown custom type" for [t] exactly when the
    records before some record are decoded and that record has six
    fields, integers that fit as kind and arity, a kind tag that the
    cast to the enumeration narrows to [Custom], and [t] as its
    registration field, with [t] being [None] or unknown to the
    registry.  The aux field and the counts of that record are not
    looked at. *)
Theorem FromPicklable_unknown_custom_type
    (Lookup : PyObj -> option Registration) (picklable t : PyObj) :
  FromPicklableImpl Lookup picklable = Throw (UnknownCustomType t) <->
  exists items before record after tree k n t2 t4 t5,
    py_iter picklable = Ok items /\ items = before ++ record :: after /\
    for_each (FromPicklable_item Lookup) before [] = Ok tree /\
    cast_tuple record = Ok [PyInt k; PyInt n; t2; t; t4; t5] /\
    fits_ssize_t k = true /\ fits_ssize_t n = true /\
    PyTreeKind.of_tag (static_cast_PyTreeKind k) = Some PyTreeKind.Custom /\
    (is_none t = true \/ Lookup t = None).
Proof.
  unfold FromPicklableImpl. split.
  - destruct (py_iter picklable) as [items|e] eqn:Hiter; simpl;
      [|intros [= ->]; apply py_iter_Throw in Hiter; discriminate].
    destruct (for_each (FromPicklable_item Lookup) items []) as [tree|e] eqn:Hloop; simpl;
      [discriminate|].
    intros [= ->].
    apply for_each_Throw in Hloop as (before & record & after & tree & -> & Hbefore & Hrec).
    apply FromPicklable_item_unknown in Hrec
      as (k & n & t2 & t4 & t5 & Htuple & Hk & Hn & Hkind & Hfind).
    exists (before ++ record :: after), before, record, after, tree, k, n, t2, t4, t5.
    auto 10.
  - intros (items & before & record & after & tree & k & n & t2 & t4 & t5
            & -> & -> & Hbefore & Htuple & Hk & Hn & Hkind & Hfind). simpl.
    rewrite (proj2 (for_each_Throw _ _ _ (UnknownCustomType t))); [reflexivity|].
    exists before, record, after, tree. repeat split; auto.
    apply FromPicklable_item_unknown. exists k, n, t2, t4, t5. auto.
Qed.

Lemma FromPicklable_unknown_custom_type_witness :
  FromPicklableImpl empty_registry boxed_leaf_pickle = Throw (UnknownCustomType box_type) /\
  FromPicklableImpl empty_registry wrapped_custom_tag_pickle
    = Throw (UnknownCustomType box_type).
Proof.
  split.
  - apply (proj2 (FromPicklable_unknown_custom_type empty_registry boxed_leaf_pickle box_type)).
    exists [PyTuple [PyInt 0; PyInt 0; PyNone; PyNone; PyInt 1; PyInt 1];
            PyTuple [PyInt 6; PyInt 1; PyNone; box_type; PyInt 1; PyInt 2]],
           [PyTuple [PyInt 0; PyInt 0; PyNone; PyNone; PyInt 1; PyInt 1]],
           (PyTuple [PyInt 6; PyInt 1; PyNone; box_type; PyInt 1; PyInt 2]), [],
           [leaf_node], 6, 1, PyNone, (PyInt 1), (PyInt 2).
    repeat split; auto.
  - apply (proj2 (FromPicklable_unknown_custom_type empty_registry wrapped_custom_tag_pickle
                    box_type)).
    exists [PyTuple [PyInt (2 ^ 32 + 6); PyInt 1; PyNone; box_type; PyInt 1; PyInt 2]],
           [], (PyTuple [PyInt (2 ^ 32 + 6); PyInt 1; PyNone; box_type; PyInt 1; PyInt 2]), [],
           [], (2 ^ 32 + 6), 1, PyNone, (PyInt 1), (PyInt 2).
    repeat split; auto.
Defined.

(* ------------------------------------------------------------------ *)
(** ** Classification, and equality as sameness of shape *)

(** X16: what [GetKind] does to [*custom].  For a registered type the
    registry decides alone: [*custom] becomes the registration when its
    kind is [Custom] and [nullptr] otherwise.  For an unregistered type
    the kind is [NamedTuple] or [Leaf] and [*custom] is not written.  So,
    entered with [*custom] null, [GetKind] leaves it set exactly when it
    returns [Custom]. *)
Theorem GetKind_custom
    (Lookup : PyObj -> option Registration) (registration_kind : Registration -> Z)
    (get_type : PyObj -> PyObj) (isinstance_tuple hasattr_fields : PyObj -> bool)
    (handle : PyObj) (custom : option Registration) :
  let result :=
    GetKind Lookup registration_kind get_type isinstance_tuple hasattr_fields handle custom in
  (forall registration,
      Lookup (get_type handle) = Some registration ->
      fst result = registration_kind registration /\
      (snd result <> None <-> fst result = PyTreeKind.to_tag PyTreeKind.Custom) /\
      (snd result <> None -> snd result = Some registration)) /\
  (Lookup (get_type handle) = None ->
   snd result = custom /\
   fst result = (if isinstance_tuple handle && hasattr_fields handle
                 then PyTreeKind.to_tag PyTreeKind.NamedTuple
                 else PyTreeKind.to_tag PyTreeKind.Leaf)) /\
  (custom = None ->
   (snd result <> None <-> fst result = PyTreeKind.to_tag PyTreeKind.Custom)).
Proof.
  unfold GetKind. cbv zeta.
  destruct (Lookup (get_type handle)) as [r|]; cbn [fst snd].
  - destruct (Z.eqb_spec (registration_kind r) (PyTreeKind.to_tag PyTreeKind.Custom)) as [E|E].
    + split; [|split].
      * intros registration [= <-]. split; [reflexivity|].
        split; [split; [auto | discriminate] | auto].
      * discriminate.
      * intros _. split; [auto | discriminate].
    + split; [|split].
      * intros registration [= <-]. split; [reflexivity|].
        split; [split; [intros Hset; contradiction Hset; reflexivity | intros Hk; contradiction]
               | intros Hset; contradiction Hset; reflexivity].
      * discriminate.
      * intros _.
        split; [intros Hset; contradiction Hset; reflexivity | intros Hk; contradiction].
  - split; [discriminate|]. split.
    + intros _. destruct (isinstance_tuple handle && hasattr_fields handle); auto.
    + intros ->. destruct (isinstance_tuple handle && hasattr_fields handle); cbn [fst snd];
        (split; [intros Hset; contradiction Hset; reflexivity | discriminate]).
Qed.

Lemma GetKind_custom_witness :
  snd (GetKind box_registry custom_kind sample_get_type sample_isinstance_tuple no_fields
         (PyOpaque 5) None) <> None
  <-> fst (GetKind box_registry custom_kind sample_get_type sample_isinstance_tuple no_fields
             (PyOpaque 5) None) = PyTreeKind.to_tag PyTreeKind.Custom.
Proof.
  exact (proj2 (proj2 (GetKind_custom box_registry custom_kind sample_get_type
                         sample_isinstance_tuple no_fields (PyOpaque 5) None)) eq_refl).
Defined.

Lemma Forall2_nodes_agree_shape (a b : list Node) :
  Forall2 nodes_agree a b ->
  length (filter leaf_like a) = length (filter leaf_like b) /\
  forall depth, postorder_depth a depth = postorder_depth b depth.
Proof.
  induction 1 as [|x y a b (Hk & Ha & _) _ [IHl IHd]]; simpl; [auto|].
  assert (Hll : leaf_like y = leaf_like x) by (unfold leaf_like; rewrite Hk; reflexivity).
  rewrite Hll, <- Ha. split.
  - destruct (leaf_like x); simpl; auto.
  - intros depth. destruct (leaf_like x); [apply IHd|].
    destruct (depth <? arity x); [reflexivity | apply IHd].
Qed.

(** X17: traversals equal under [operator==] have the same shape: as
    many nodes, as many [Leaf] and [None] nodes (so reconstruction takes
    as many leaves from each) and the same post-order depths; one is
    post-order consistent exactly when the other is. *)
Theorem PyTreeSpec_eq_same_shape (self other : PyTreeSpec) :
  PyTreeSpec_eq self other = true ->
  PyTreeSpec_num_nodes self = PyTreeSpec_num_nodes other /\
  length (filter leaf_like (traversal self)) = length (filter leaf_like (traversal other)) /\
  (forall depth,
      postorder_depth (traversal self) depth = postorder_depth (traversal other) depth).
Proof.
  intros [Hlen H]%PyTreeSpec_eq_iff.
  destruct (Forall2_nodes_agree_shape _ _ H) as [Hleaves Hdepth].
  unfold PyTreeSpec_num_nodes, size. rewrite Hlen. auto.
Qed.

Lemma PyTreeSpec_eq_same_shape_witness :
  PyTreeSpec_num_nodes triple
    = PyTreeSpec_num_nodes (mkSpec [leaf_node; leaf_node; leaf_node; tuple_node 3 0 0]) /\
  length (filter leaf_like (traversal triple))
    = length (filter leaf_like [leaf_node; leaf_node; leaf_node; tuple_node 3 0 0]) /\
  (forall depth,
      postorder_depth (traversal triple) depth
      = postorder_depth [leaf_node; leaf_node; leaf_node; tuple_node 3 0 0] depth).
Proof.
  exact (PyTreeSpec_eq_same_shape triple
           (mkSpec [leaf_node; leaf_node; leaf_node; tuple_node 3 0 0]) eq_refl).
Defined.
